(** * Traffic-light detector node ([tl_detector.py]): shallow embedding

    The node is a Python object whose ROS callbacks mutate its attributes.
    It is embedded as a record [TLDetector] threaded through a small
    state-and-exception monad: a raised Python exception aborts the rest of
    the callback but keeps the attribute writes made before it.

    The external collaborators (scipy's KDTree, the image bridge, the
    classifier, the message constants of [styx_msgs]) are not part of the
    file; they are the fields of the class [External]. *)

From Stdlib Require Import ZArith Lia Bool.
From stdpp Require Import base list.

Local Open Scope Z_scope.

(** ** Python values *)

(** The values that flow through [light_wp], [state], [last_wp]: integers,
    booleans ([get_light_state] may return [False]) and [None]. *)
Inductive pyval : Type :=
  | PInt (z : Z)
  | PBool (b : bool)
  | PNone.

(** Numeric reading of a value: Python's [bool] is a subclass of [int]. *)
Definition py_num (v : pyval) : option Z :=
  match v with
  | PInt z => Some z
  | PBool b => Some (if b then 1 else 0)
  | PNone => None
  end.

(** Python's [==] on these values. *)
Definition py_eq (a b : pyval) : bool :=
  match py_num a, py_num b with
  | Some x, Some y => x =? y
  | None, None => true
  | _, _ => false
  end.

(** Python's [!=]. *)
Definition py_ne (a b : pyval) : bool := negb (py_eq a b).

Inductive exn : Type :=
  | AttributeError
  | IndexError
  | ValueError.

Inductive result (A : Type) : Type :=
  | Ok (a : A)
  | Raise (e : exn).
Arguments Ok {A} a.
Arguments Raise {A} e.

(** ** Module constants (lines 17-20) *)

Definition STATE_COUNT_THRESHOLD : Z := 3.
Definition WAYPOINT_LOOKAHEAD : Z := 100.
Definition SAVE_IMAGE : bool := false.
Definition MOCK_TRAFFIC_LIGHTS : bool := false.

(** ** External collaborators *)

Class External : Type := {
  (** Python floats: the coordinates of poses, waypoints and stop lines. *)
  coord : Type;
  (** [scipy.spatial.KDTree]: the constructor ([None] when it raises) and
      [tree.query([x, y], 1)[1]], the index of the nearest data point. *)
  KDTree_t : Type;
  KDTree : list (coord * coord) -> option KDTree_t;
  KDTree_query : KDTree_t -> coord -> coord -> Z;
  (** [sensor_msgs/Image], [CvBridge.imgmsg_to_cv2] and
      [TLClassifier.get_classification]. *)
  Image : Type;
  CvImage : Type;
  imgmsg_to_cv2 : Image -> CvImage;
  get_classification : CvImage -> pyval;
  (** The colour constants of [styx_msgs/TrafficLight] the node uses. *)
  TrafficLight_RED : Z;
  TrafficLight_UNKNOWN : Z
}.

(** A position [[x, y]]. *)
Abbreviation point := (coord * coord)%type.

Section Detector.
Context `{Ext : External}.

(** One entry of [Lane.waypoints]; only the position is read. *)
Record Waypoint : Type := { wp_x : coord; wp_y : coord }.

(** One entry of [TrafficLightArray.lights]. *)
Record TrafficLight : Type := { tl_pose : point; tl_state : Z }.

(** Calls that leave the object: what was asked of the collaborators and
    what was published on [/traffic_waypoint], newest first. *)
Inductive Call : Type :=
  | CallKDTree (data : list point)
  | CallQuery (x y : coord)
  | CallClassify (img : Image)
  | CallImwrite (state : pyval) (img : Image)
  | CallPublish (data : pyval).

(** ** The object's attributes

    [has_image] and [prev_light_loc] are not assigned by [__init__]: they
    are absent ([None]) until some method assigns them. *)
Record TLDetector : Type := {
  pose : option point;
  waypoints : option (list Waypoint);
  camera_image : option Image;
  lights : list TrafficLight;
  waypoints_2d : option (list point);
  waypoint_tree : option KDTree_t;
  config_stop_line_positions : list point;
  state : pyval;
  last_state : pyval;
  last_wp : pyval;
  state_count : Z;
  image_counter : Z;
  has_image : option bool;
  prev_light_loc : option (option TrafficLight);
  calls : list Call
}.

Definition set_pose (v : option point) (s : TLDetector) : TLDetector :=
  {| pose := v; waypoints := waypoints s; camera_image := camera_image s;
     lights := lights s; waypoints_2d := waypoints_2d s;
     waypoint_tree := waypoint_tree s;
     config_stop_line_positions := config_stop_line_positions s;
     state := state s; last_state := last_state s; last_wp := last_wp s;
     state_count := state_count s; image_counter := image_counter s;
     has_image := has_image s; prev_light_loc := prev_light_loc s;
     calls := calls s |}.

Definition set_waypoints (v : option (list Waypoint)) (s : TLDetector) : TLDetector :=
  {| pose := pose s; waypoints := v; camera_image := camera_image s;
     lights := lights s; waypoints_2d := waypoints_2d s;
     waypoint_tree := waypoint_tree s;
     config_stop_line_positions := config_stop_line_positions s;
     state := state s; last_state := last_state s; last_wp := last_wp s;
     state_count := state_count s; image_counter := image_counter s;
     has_image := has_image s; prev_light_loc := prev_light_loc s;
     calls := calls s |}.

Definition set_camera_image (v : option Image) (s : TLDetector) : TLDetector :=
  {| pose := pose s; waypoints := waypoints s; camera_image := v;
     lights := lights s; waypoints_2d := waypoints_2d s;
     waypoint_tree := waypoint_tree s;
     config_stop_line_positions := config_stop_line_positions s;
     state := state s; last_state := last_state s; last_wp := last_wp s;
     state_count := state_count s; image_counter := image_counter s;
     has_image := has_image s; prev_light_loc := prev_light_loc s;
     calls := calls s |}.

Definition set_lights (v : list TrafficLight) (s : TLDetector) : TLDetector :=
  {| pose := pose s; waypoints := waypoints s; camera_image := camera_image s;
     lights := v; waypoints_2d := waypoints_2d s;
     waypoint_tree := waypoint_tree s;
     config_stop_line_positions := config_stop_line_positions s;
     state := state s; last_state := last_state s; last_wp := last_wp s;
     state_count := state_count s; image_counter := image_counter s;
     has_image := has_image s; prev_light_loc := prev_light_loc s;
     calls := calls s |}.

Definition set_waypoints_2d (v : option (list point)) (s : TLDetector) : TLDetector :=
  {| pose := pose s; waypoints := waypoints s; camera_image := camera_image s;
     lights := lights s; waypoints_2d := v;
     waypoint_tree := waypoint_tree s;
     config_stop_line_positions := config_stop_line_positions s;
     state := state s; last_state := last_state s; last_wp := last_wp s;
     state_count := state_count s; image_counter := image_counter s;
     has_image := has_image s; prev_light_loc := prev_light_loc s;
     calls := calls s |}.

Definition set_waypoint_tree (v : option KDTree_t) (s : TLDetector) : TLDetector :=
  {| pose := pose s; waypoints := waypoints s; camera_image := camera_image s;
     lights := lights s; waypoints_2d := waypoints_2d s;
     waypoint_tree := v;
     config_stop_line_positions := config_stop_line_positions s;
     state := state s; last_state := last_state s; last_wp := last_wp s;
     state_count := state_count s; image_counter := image_counter s;
     has_image := has_image s; prev_light_loc := prev_light_loc s;
     calls := calls s |}.

Definition set_state (v : pyval) (s : TLDetector) : TLDetector :=
  {| pose := pose s; waypoints := waypoints s; camera_image := camera_image s;
     lights := lights s; waypoints_2d := waypoints_2d s;
     waypoint_tree := waypoint_tree s;
     config_stop_line_positions := config_stop_line_positions s;
     state := v; last_state := last_state s; last_wp := last_wp s;
     state_count := state_count s; image_counter := image_counter s;
     has_image := has_image s; prev_light_loc := prev_light_loc s;
     calls := calls s |}.

Definition set_last_state (v : pyval) (s : TLDetector) : TLDetector :=
  {| pose := pose s; waypoints := waypoints s; camera_image := camera_image s;
     lights := lights s; waypoints_2d := waypoints_2d s;
     waypoint_tree := waypoint_tree s;
     config_stop_line_positions := config_stop_line_positions s;
     state := state s; last_state := v; last_wp := last_wp s;
     state_count := state_count s; image_counter := image_counter s;
     has_image := has_image s; prev_light_loc := prev_light_loc s;
     calls := calls s |}.

Definition set_last_wp (v : pyval) (s : TLDetector) : TLDetector :=
  {| pose := pose s; waypoints := waypoints s; camera_image := camera_image s;
     lights := lights s; waypoints_2d := waypoints_2d s;
     waypoint_tree := waypoint_tree s;
     config_stop_line_positions := config_stop_line_positions s;
     state := state s; last_state := last_state s; last_wp := v;
     state_count := state_count s; image_counter := image_counter s;
     has_image := has_image s; prev_light_loc := prev_light_loc s;
     calls := calls s |}.

Definition set_state_count (v : Z) (s : TLDetector) : TLDetector :=
  {| pose := pose s; waypoints := waypoints s; camera_image := camera_image s;
     lights := lights s; waypoints_2d := waypoints_2d s;
     waypoint_tree := waypoint_tree s;
     config_stop_line_positions := config_stop_line_positions s;
     state := state s; last_state := last_state s; last_wp := last_wp s;
     state_count := v; image_counter := image_counter s;
     has_image := has_image s; prev_light_loc := prev_light_loc s;
     calls := calls s |}.

Definition set_has_image (v : option bool) (s : TLDetector) : TLDetector :=
  {| pose := pose s; waypoints := waypoints s; camera_image := camera_image s;
     lights := lights s; waypoints_2d := waypoints_2d s;
     waypoint_tree := waypoint_tree s;
     config_stop_line_positions := config_stop_line_positions s;
     state := state s; last_state := last_state s; last_wp := last_wp s;
     state_count := state_count s; image_counter := image_counter s;
     has_image := v; prev_light_loc := prev_light_loc s;
     calls := calls s |}.

Definition set_prev_light_loc (v : option (option TrafficLight)) (s : TLDetector) : TLDetector :=
  {| pose := pose s; waypoints := waypoints s; camera_image := camera_image s;
     lights := lights s; waypoints_2d := waypoints_2d s;
     waypoint_tree := waypoint_tree s;
     config_stop_line_positions := config_stop_line_positions s;
     state := state s; last_state := last_state s; last_wp := last_wp s;
     state_count := state_count s; image_counter := image_counter s;
     has_image := has_image s; prev_light_loc := v;
     calls := calls s |}.

Definition set_calls (v : list Call) (s : TLDetector) : TLDetector :=
  {| pose := pose s; waypoints := waypoints s; camera_image := camera_image s;
     lights := lights s; waypoints_2d := waypoints_2d s;
     waypoint_tree := waypoint_tree s;
     config_stop_line_positions := config_stop_line_positions s;
     state := state s; last_state := last_state s; last_wp := last_wp s;
     state_count := state_count s; image_counter := image_counter s;
     has_image := has_image s; prev_light_loc := prev_light_loc s;
     calls := v |}.

(** ** The method monad: state plus exceptions *)

Definition M (A : Type) : Type := TLDetector -> result A * TLDetector.

Definition ret {A : Type} (a : A) : M A := fun s => (Ok a, s).

Definition bind {A B : Type} (m : M A) (k : A -> M B) : M B :=
  fun s =>
    match m s with
    | (Ok a, s') => k a s'
    | (Raise e, s') => (Raise e, s')
    end.

Definition raise {A : Type} (e : exn) : M A := fun s => (Raise e, s).

(** Read an attribute / apply an attribute write. *)
Definition read {A : Type} (f : TLDetector -> A) : M A := fun s => (Ok (f s), s).
Definition write (f : TLDetector -> TLDetector) : M unit := fun s => (Ok tt, f s).

(** Record an outgoing call. *)
Definition call (c : Call) : M unit := write (fun s => set_calls (c :: calls s) s).

Notation "x <- m ;; k" := (bind m (fun x => k))
  (at level 100, m at next level, right associativity).
Notation "m ;;; k" := (bind m (fun _ => k))
  (at level 100, right associativity).

(** Value and final state of running a method. *)
Definition value_of {A : Type} (r : result A * TLDetector) : result A := fst r.
Definition state_of {A : Type} (r : result A * TLDetector) : TLDetector := snd r.

(** ** [__init__] (lines 25-65)

    [config] is the parsed [/traffic_light_config] parameter; only its
    [stop_line_positions] entry is read. *)
Definition __init__ (stop_line_positions : list point) : TLDetector :=
  {| pose := None;
     waypoints := None;
     camera_image := None;
     lights := [];
     waypoints_2d := None;
     waypoint_tree := None;
     config_stop_line_positions := stop_line_positions;
     state := PInt TrafficLight_RED;
     last_state := PInt TrafficLight_RED;
     last_wp := PInt (-1);
     state_count := 0;
     image_counter := 0;
     has_image := None;
     prev_light_loc := None;
     calls := [] |}.

(** ** [pose_cb], [waypoints_cb], [traffic_cb] (lines 67-77) *)

Definition pose_cb (msg : point) : M unit :=
  write (set_pose (Some msg)).

(** Truth value of [self.waypoints_2d]: [None] and [[]] are false. *)
Definition truthy_list {A : Type} (v : option (list A)) : bool :=
  match v with
  | None | Some [] => false
  | Some (_ :: _) => true
  end.

(** The comprehension of line 73: the [[x, y]] of every waypoint. *)
Definition waypoint_xy (msg : list Waypoint) : list point :=
  map (fun w => (wp_x w, wp_y w)) msg.

Definition waypoints_cb (msg : list Waypoint) : M unit :=
  write (set_waypoints (Some msg)) ;;;
  w2d <- read waypoints_2d ;;
  if negb (truthy_list w2d) then
    let data := waypoint_xy msg in
    write (set_waypoints_2d (Some data)) ;;;
    call (CallKDTree data) ;;;
    match KDTree data with
    | Some t => write (set_waypoint_tree (Some t))
    | None => raise ValueError
    end
  else ret tt.

Definition traffic_cb (msg : list TrafficLight) : M unit :=
  write (set_lights msg).

(** ** [get_closest_waypoint] (lines 114-124)

    [self.waypoint_tree.query([x, y], 1)[1]]; with no tree the attribute
    access on [None] raises. *)
Definition get_closest_waypoint (x y : coord) : M Z :=
  tree <- read waypoint_tree ;;
  match tree with
  | None => raise AttributeError
  | Some t => call (CallQuery x y) ;;; ret (KDTree_query t x y)
  end.

(** ** [get_light_state] (lines 126-147) *)
Definition get_light_state (light : TrafficLight) : M pyval :=
  if MOCK_TRAFFIC_LIGHTS then ret (PInt (tl_state light))
  else
    flag <- read has_image ;;
    match flag with
    | None => raise AttributeError
    | Some false =>
        write (set_prev_light_loc (Some None)) ;;;
        ret (PBool false)
    | Some true =>
        img <- read camera_image ;;
        match img with
        | None => raise AttributeError
        | Some im =>
            call (CallClassify im) ;;;
            ret (get_classification (imgmsg_to_cv2 im))
        end
    end.

(** ** [save_image] (lines 197-201) *)
Definition save_image (state' : pyval) : M unit :=
  img <- read camera_image ;;
  match img with
  | None => raise AttributeError
  | Some im => call (CallImwrite state' im)
  end.

(** ** [get_closest_light_in_front] (lines 181-195)

    The body of the [for i, light in enumerate(self.lights)] loop, with the
    three loop-carried variables [(closest_light, diff, line_wp_idx)]. *)
Definition selection : Type := option TrafficLight * Z * option Z.

Fixpoint closest_light_loop (car_position : Z) (stop_line_positions : list point)
    (i : nat) (ls : list TrafficLight) (acc : selection) : M selection :=
  match ls with
  | [] => ret acc
  | light :: rest =>
      let '(closest_light, diff, line_wp_idx) := acc in
      match stop_line_positions !! i with
      | None => raise IndexError
      | Some line =>
          temp_wp_idx <- get_closest_waypoint (fst line) (snd line) ;;
          let distance := temp_wp_idx - car_position in
          closest_light_loop car_position stop_line_positions (S i) rest
            (if (0 <=? distance) && (distance <? diff)
             then (Some light, distance, Some temp_wp_idx)
             else (closest_light, diff, line_wp_idx))
      end
  end.

Definition get_closest_light_in_front (car_position : Z)
    (stop_line_positions : list point) : M selection :=
  wps <- read waypoints ;;
  match wps with
  | None => raise AttributeError
  | Some w =>
      let diff := Z.of_nat (length w) in
      ls <- read lights ;;
      closest_light_loop car_position stop_line_positions 0 ls (None, diff, None)
  end.

(** ** [process_traffic_lights] (lines 149-179) *)

(** A Python [int]-or-[None] as a value. *)
Definition py_of_index (i : option Z) : pyval :=
  match i with
  | Some z => PInt z
  | None => PNone
  end.

Definition process_traffic_lights : M (pyval * pyval) :=
  stop_line_positions <- read config_stop_line_positions ;;
  p <- read pose ;;
  match p with
  | None => ret (PInt (-1), PInt TrafficLight_UNKNOWN)
  | Some (px, py) =>
      car_position <- get_closest_waypoint px py ;;
      sel <- get_closest_light_in_front car_position stop_line_positions ;;
      let '(closest_light, distance, line_wp_idx) := sel in
      let no_light :=
        (if SAVE_IMAGE then save_image (PInt 3) else ret tt) ;;;
        ret (PInt (-1), PInt TrafficLight_UNKNOWN) in
      match closest_light with
      | Some light =>
          if distance <? WAYPOINT_LOOKAHEAD then
            state' <- get_light_state light ;;
            (if SAVE_IMAGE then save_image state' else ret tt) ;;;
            ret (py_of_index line_wp_idx, state')
          else no_light
      | None => no_light
      end
  end.

(** ** [image_cb] (lines 79-112) *)

(** Lines 102-112: the debouncing of one frame's [(light_wp, state)]. *)
Definition publish_upcoming_red_light (light_wp state' : pyval) : M unit :=
  cur <- read state ;;
  (if py_ne cur state' then
     write (set_state_count 0) ;;;
     write (set_state state')
   else
     cnt <- read state_count ;;
     if STATE_COUNT_THRESHOLD <=? cnt then
       write (fun s => set_last_state (state s) s) ;;;
       let light_wp := if py_eq state' (PInt TrafficLight_RED)
                       then light_wp else PInt (-1) in
       write (set_last_wp light_wp) ;;;
       call (CallPublish light_wp)
     else
       lw <- read last_wp ;;
       call (CallPublish lw)) ;;;
  write (fun s => set_state_count (state_count s + 1) s).

Definition image_cb (msg : Image) : M unit :=
  write (set_has_image (Some true)) ;;;
  write (set_camera_image (Some msg)) ;;;
  r <- process_traffic_lights ;;
  publish_upcoming_red_light (fst r) (snd r).

(** ** Runs of callbacks *)

(** The messages published on [/traffic_waypoint], oldest first. *)
Definition published (s : TLDetector) : list pyval :=
  rev (omap (fun c => match c with CallPublish v => Some v | _ => None end)
            (calls s)).

(** ROS delivers messages one after the other; an exception raised by a
    callback is logged by the middleware and the node goes on with the
    attributes as the callback left them. *)
Fixpoint deliver {A : Type} (cb : A -> M unit) (msgs : list A) (s : TLDetector)
    : TLDetector :=
  match msgs with
  | [] => s
  | m :: rest => deliver cb rest (state_of (cb m s))
  end.

(** The debouncer fed with a sequence of per-frame results. *)
Definition debounce (frames : list (pyval * pyval)) (s : TLDetector) : TLDetector :=
  deliver (fun f => publish_upcoming_red_light (fst f) (snd f)) frames s.

(** ** Reading aids for the statements *)

(** Which of the three branches of lines 102-111 a frame takes, by the two
    tests of the source: [self.state != state], then
    [self.state_count >= STATE_COUNT_THRESHOLD]. *)
Inductive Branch : Type := Switch | Commit | Hold.

Definition branch_of (s : TLDetector) (state' : pyval) : Branch :=
  if py_ne (state s) state' then Switch
  else if STATE_COUNT_THRESHOLD <=? state_count s then Commit
  else Hold.

(** The branches taken along a run of the debouncer. *)
Fixpoint branches (frames : list (pyval * pyval)) (s : TLDetector) : list Branch :=
  match frames with
  | [] => []
  | f :: rest =>
      branch_of s (snd f)
      :: branches rest (state_of (publish_upcoming_red_light (fst f) (snd f) s))
  end.

(** The path index of stop line [i], as line 188 computes it with tree [t]. *)
Definition stop_line_wp (t : KDTree_t) (stop_line_positions : list point) (i : nat) : Z :=
  match stop_line_positions !! i with
  | Some line => KDTree_query t (fst line) (snd line)
  | None => 0
  end.

(** The loop of [get_closest_light_in_front] once the queries are answered:
    [idx i] is the path index of stop line [i]. *)
Fixpoint select_from (car_position : Z) (idx : nat -> Z) (i : nat)
    (ls : list TrafficLight) (acc : selection) : selection :=
  match ls with
  | [] => acc
  | light :: rest =>
      let '(closest_light, diff, line_wp_idx) := acc in
      let distance := idx i - car_position in
      select_from car_position idx (S i) rest
        (if (0 <=? distance) && (distance <? diff)
         then (Some light, distance, Some (idx i))
         else (closest_light, diff, line_wp_idx))
  end.

(** [first_minimum L n car idx i acc]: among the first [i] lights of [L],
    [acc] is the selection the specification describes, where a light [j]
    is eligible when its distance [idx j - car] is in [[0, n)]: either no
    light is eligible and [acc] is the initial [(None, n, None)], or [acc]
    holds the eligible light of least distance, the earliest of them. *)
Definition first_minimum (L : list TrafficLight) (n car_position : Z)
    (idx : nat -> Z) (i : nat) (acc : selection) : Prop :=
  let d j := idx j - car_position in
  match acc with
  | (None, diff, None) =>
      diff = n /\ forall j, (j < i)%nat -> ~ (0 <= d j < n)
  | (Some light, diff, Some ix) =>
      exists k, (k < i)%nat /\ L !! k = Some light /\
        ix = idx k /\ diff = d k /\ 0 <= d k < n /\
        (forall j, (j < i)%nat -> 0 <= d j < n -> d k <= d j) /\
        (forall j, (j < k)%nat -> 0 <= d j < n -> d k < d j)
  | _ => False
  end.

(** ** The node as a whole *)

(** What [rospy.spin] hands to the node: one message of one of the four
    subscribed topics at a time. *)
Inductive Message : Type :=
  | OnPose (msg : point)
  | OnWaypoints (msg : list Waypoint)
  | OnTraffic (msg : list TrafficLight)
  | OnImage (msg : Image).

(** The subscriptions of lines 36-47. *)
Definition callback (m : Message) : M unit :=
  match m with
  | OnPose msg => pose_cb msg
  | OnWaypoints msg => waypoints_cb msg
  | OnTraffic msg => traffic_cb msg
  | OnImage msg => image_cb msg
  end.

Definition spin (msgs : list Message) (s : TLDetector) : TLDetector :=
  deliver callback msgs s.

(** The node when [image_cb] calls [process_traffic_lights]: lines 92-93
    have run. *)
Definition frame_start (msg : Image) (s : TLDetector) : TLDetector :=
  set_camera_image (Some msg) (set_has_image (Some true) s).

(** What the pose, path and light callbacks have stored. *)
Definition inputs_of (s : TLDetector) :=
  (pose s, waypoints s, lights s, waypoints_2d s, waypoint_tree s,
   config_stop_line_positions s).

(** The debouncer's variables and what it has published. *)
Definition debouncer_of (s : TLDetector) :=
  (state s, last_state s, last_wp s, state_count s, published s).

(** Frames whose colour differs each time from the colour before, the
    first from [c0]. *)
Fixpoint flickering (c0 : pyval) (frames : list (pyval * pyval)) : Prop :=
  match frames with
  | [] => True
  | f :: rest => py_eq c0 (snd f) = false /\ flickering (snd f) rest
  end.

(** What [process_traffic_lights] hands to the debouncer for image [msg]
    (a raised exception has no output). *)
Definition frame_output (s : TLDetector) (msg : Image) : option (pyval * pyval) :=
  match value_of (process_traffic_lights (frame_start msg s)) with
  | Ok r => Some r
  | Raise _ => None
  end.

(** What holds of a node constructed with stop lines [slp] whatever
    messages it has been sent. *)
Definition node_invariant (slp : list point) (s : TLDetector) : Prop :=
  config_stop_line_positions s = slp /\
  0 <= state_count s /\
  (has_image s = None /\ camera_image s = None \/
   has_image s = Some true /\ is_Some (camera_image s)) /\
  (is_Some (waypoint_tree s) -> is_Some (waypoints s)) /\
  (is_Some (waypoints_2d s) -> is_Some (waypoints s)).

(** Everything of the node but the collaborator calls in its log and
    [prev_light_loc]. *)
Definition kept_of (s : TLDetector) :=
  (inputs_of s, debouncer_of s, has_image s, camera_image s, image_counter s).

(** The queries the selection loop sends for the first [n] stop lines,
    newest first as in [calls]. *)
Definition stop_line_queries (n : nat) (stop_line_positions : list point) : list Call :=
  rev (map (fun line => CallQuery (fst line) (snd line))
           (take n stop_line_positions)).

End Detector.

(** ** A reference instance of the collaborators

    Used to run the node on concrete inputs. Coordinates are integers; the
    tree is the list of its points, refused when empty as scipy refuses an
    array that is not two-dimensional; the query is a linear scan in which
    the lowest index wins a tie; an image carries the label the classifier
    finds in it; the colours are those of [styx_msgs/TrafficLight]. *)
Module Reference.

Definition dist2 (p : Z * Z) (x y : Z) : Z :=
  (fst p - x) * (fst p - x) + (snd p - y) * (snd p - y).

Fixpoint nearest_from (i : Z) (data : list (Z * Z)) (x y : Z) (best bestd : Z) : Z :=
  match data with
  | [] => best
  | p :: rest =>
      if dist2 p x y <? bestd
      then nearest_from (i + 1) rest x y i (dist2 p x y)
      else nearest_from (i + 1) rest x y best bestd
  end.

Definition nearest (data : list (Z * Z)) (x y : Z) : Z :=
  match data with
  | [] => 0
  | p :: rest => nearest_from 1 rest x y 0 (dist2 p x y)
  end.

#[export] Instance ext : External := {|
  coord := Z;
  KDTree_t := list (Z * Z);
  KDTree := fun data => match data with [] => None | _ => Some data end;
  KDTree_query := nearest;
  Image := pyval;
  CvImage := pyval;
  imgmsg_to_cv2 := fun img => img;
  get_classification := fun img => img;
  TrafficLight_RED := 0;
  TrafficLight_UNKNOWN := 4
|}.

(** [n] waypoints equally spaced on the x axis: (0,0), (1,0), ... *)
Definition line_path (n : nat) : list Waypoint :=
  map (fun k => {| wp_x := Z.of_nat k; wp_y := 0 |}) (seq 0 n).

(** A light whose stop line is at [(x, 0)]. *)
Definition light_at (x : Z) : TrafficLight := {| tl_pose := (x, 0); tl_state := 0 |}.

(** A node that has received a [n]-point path, a pose at [(car, 0)] and one
    light per stop line. *)
Definition driving (n : nat) (car : Z) (stops : list Z) : TLDetector :=
  state_of (traffic_cb (map light_at stops)
    (state_of (pose_cb (car, 0)
      (state_of (waypoints_cb (line_path n)
        (__init__ (map (fun x => (x, 0)) stops))))))).

(** A node just constructed, with no stop line configured. *)
Definition fresh : TLDetector := __init__ [].

(** The colours of [styx_msgs/TrafficLight] as values. *)
Definition RED : pyval := PInt 0.
Definition GREEN : pyval := PInt 2.

(** The debouncer after four GREEN frames, resp. three RED frames, from the
    start. *)
Definition green_stable : TLDetector :=
  debounce (replicate 4 (PInt (-1), GREEN)) fresh.
Definition red_counted : TLDetector :=
  debounce (replicate 3 (PInt 7, RED)) fresh.

(** A node with a path and a light but no pose. *)
Definition no_pose : TLDetector :=
  state_of (traffic_cb [light_at 7]
    (state_of (waypoints_cb (line_path 10) (__init__ [(7, 0)])))).

(** A node with a pose but no path. *)
Definition no_path : TLDetector :=
  state_of (pose_cb (2, 0) (__init__ [(7, 0)])).

(** The two writes with which [image_cb] starts. *)
Definition framed (msg : pyval) (s : TLDetector) : TLDetector :=
  set_camera_image (Some msg) (set_has_image (Some true) s).

(** A node sent a 100-point path, a pose at its first point, one light
    with its stop line at index 50, and then a 1-point path. *)
Definition stale_index : TLDetector :=
  spin [OnWaypoints (line_path 100); OnPose (0, 0); OnTraffic [light_at 50];
        OnWaypoints (line_path 1)] (__init__ [(50, 0)]).

(** Collaborators whose tree constructor always raises. *)
Definition brittle : External := {|
  coord := Z;
  KDTree_t := list (Z * Z);
  KDTree := fun _ => None;
  KDTree_query := nearest;
  Image := pyval;
  CvImage := pyval;
  imgmsg_to_cv2 := fun img => img;
  get_classification := fun img => img;
  TrafficLight_RED := 0;
  TrafficLight_UNKNOWN := 4
|}.

End Reference.

(** * Properties *)

Section DetectorProperties.
Context `{Ext : External}.

Ltac run := unfold bind, ret, read, write, call, raise; simpl.

(** ** Python equality *)

Lemma py_eq_refl (v : pyval) : py_eq v v = true.
Proof.
  unfold py_eq. destruct (py_num v) as [x|]; [apply Z.eqb_refl | reflexivity].
Qed.

(** ** The debouncer, one frame at a time *)

(** What one frame does, branch by branch. *)
Lemma publish_upcoming_red_light_step (light_wp state' : pyval) (s : TLDetector) :
  publish_upcoming_red_light light_wp state' s =
  (Ok tt,
   match branch_of s state' with
   | Switch => set_state_count 1 (set_state state' s)
   | Commit =>
       let v := if py_eq state' (PInt TrafficLight_RED) then light_wp else PInt (-1) in
       set_state_count (state_count s + 1)
         (set_calls (CallPublish v :: calls s)
            (set_last_wp v (set_last_state (state s) s)))
   | Hold =>
       set_state_count (state_count s + 1)
         (set_calls (CallPublish (last_wp s) :: calls s) s)
   end).
Proof.
  unfold publish_upcoming_red_light, branch_of. run.
  destruct (py_ne (state s) state'); simpl; [reflexivity|].
  destruct (STATE_COUNT_THRESHOLD <=? state_count s); reflexivity.
Qed.

Lemma debounce_cons (f : pyval * pyval) (frames : list (pyval * pyval)) (s : TLDetector) :
  debounce (f :: frames) s =
  debounce frames (state_of (publish_upcoming_red_light (fst f) (snd f) s)).
Proof. reflexivity. Qed.

(** The two tests of the source decide the branch. *)
Lemma branch_of_commit (s : TLDetector) (state' : pyval) :
  py_eq (state s) state' = true ->
  STATE_COUNT_THRESHOLD <= state_count s ->
  branch_of s state' = Commit.
Proof.
  intros Heq Hcnt. unfold branch_of, py_ne. rewrite Heq. simpl.
  destruct (Z.leb_spec STATE_COUNT_THRESHOLD (state_count s)); [reflexivity | lia].
Qed.

Lemma branch_of_hold (s : TLDetector) (state' : pyval) :
  py_eq (state s) state' = true ->
  state_count s < STATE_COUNT_THRESHOLD ->
  branch_of s state' = Hold.
Proof.
  intros Heq Hcnt. unfold branch_of, py_ne. rewrite Heq. simpl.
  destruct (Z.leb_spec STATE_COUNT_THRESHOLD (state_count s)); [lia | reflexivity].
Qed.

Lemma branch_of_switch (s : TLDetector) (state' : pyval) :
  py_eq (state s) state' = false -> branch_of s state' = Switch.
Proof. intros Hne. unfold branch_of, py_ne. now rewrite Hne. Qed.

(** The state a committing frame leaves. *)
Lemma commit_frame (s : TLDetector) (light_wp state' : pyval) :
  py_eq (state s) state' = true ->
  STATE_COUNT_THRESHOLD <= state_count s ->
  state_of (publish_upcoming_red_light light_wp state' s) =
    let v := if py_eq state' (PInt TrafficLight_RED) then light_wp else PInt (-1) in
    set_state_count (state_count s + 1)
      (set_calls (CallPublish v :: calls s)
         (set_last_wp v (set_last_state (state s) s))).
Proof.
  intros Heq Hcnt.
  now rewrite publish_upcoming_red_light_step, (branch_of_commit _ _ Heq Hcnt).
Qed.

(** C7. On a commit step (the observed colour equals the current state and
    the count has reached the threshold) the frame publishes exactly one
    message: the frame's stop index if the colour is RED and -1 otherwise;
    that value is stored in [last_wp], [last_state] takes the state, and
    the count goes up by one. *)
Theorem commit_step_publishes (s : TLDetector) (light_wp state' : pyval) :
  py_eq (state s) state' = true ->
  STATE_COUNT_THRESHOLD <= state_count s ->
  let v := if py_eq state' (PInt TrafficLight_RED) then light_wp else PInt (-1) in
  let r := publish_upcoming_red_light light_wp state' s in
  value_of r = Ok tt /\
  branch_of s state' = Commit /\
  published (state_of r) = published s ++ [v] /\
  last_wp (state_of r) = v /\
  last_state (state_of r) = state s /\
  state (state_of r) = state s /\
  state_count (state_of r) = state_count s + 1.
Proof.
  intros Heq Hcnt v r.
  pose proof (branch_of_commit _ _ Heq Hcnt) as Hb.
  subst r. rewrite publish_upcoming_red_light_step, Hb.
  repeat split; reflexivity.
Qed.

(** ** Runs of the debouncer *)

(** While the colour stays that of the state and the count stays below the
    threshold, every frame republishes [last_wp]. *)
Lemma debounce_hold_run (c : pyval) (ws : list pyval) :
  forall s : TLDetector,
  py_eq (state s) c = true ->
  state_count s + Z.of_nat (length ws) <= STATE_COUNT_THRESHOLD ->
  let frames := map (fun w => (w, c)) ws in
  published (debounce frames s) = published s ++ replicate (length ws) (last_wp s) /\
  branches frames s = replicate (length ws) Hold /\
  last_wp (debounce frames s) = last_wp s /\
  last_state (debounce frames s) = last_state s /\
  state (debounce frames s) = state s /\
  state_count (debounce frames s) = state_count s + Z.of_nat (length ws).
Proof.
  induction ws as [|w ws IH]; intros s Heq Hcnt; cbn zeta.
  - simpl. rewrite app_nil_r, Z.add_0_r. repeat split; reflexivity.
  - assert (Hb : branch_of s c = Hold).
    { apply branch_of_hold; [exact Heq | simpl length in Hcnt; lia]. }
    simpl map. rewrite debounce_cons. simpl branches. simpl fst. simpl snd.
    rewrite publish_upcoming_red_light_step, Hb.
    set (s1 := state_of (Ok tt, _)).
    destruct (IH s1) as (Hp & Hbr & Hw & Hl & Hs & Hc).
    + exact Heq.
    + subst s1. simpl. simpl length in Hcnt. lia.
    + cbn zeta in *. rewrite Hp, Hbr, Hw, Hl, Hs, Hc. subst s1.
      repeat split; try reflexivity.
      * change (published (state_of (Ok tt, _))) with (published s ++ [last_wp s]).
        now rewrite <- app_assoc.
      * simpl. simpl length. lia.
Qed.

(** While the colour stays that of the state and the count is at or above
    the threshold, every frame commits. *)
Lemma debounce_commit_run (frames : list (pyval * pyval)) :
  forall s : TLDetector,
  STATE_COUNT_THRESHOLD <= state_count s ->
  Forall (fun f => py_eq (state s) (snd f) = true) frames ->
  published (debounce frames s) =
    published s ++
    map (fun f => if py_eq (snd f) (PInt TrafficLight_RED) then fst f else PInt (-1)) frames /\
  branches frames s = replicate (length frames) Commit /\
  state (debounce frames s) = state s /\
  state_count (debounce frames s) = state_count s + Z.of_nat (length frames).
Proof.
  induction frames as [|[w c] frames IH]; intros s Hcnt Hall.
  - simpl. rewrite app_nil_r, Z.add_0_r. repeat split; reflexivity.
  - inversion Hall as [|f fs Hc Hrest]; subst. simpl in Hc.
    rewrite debounce_cons. simpl branches. simpl fst. simpl snd.
    rewrite (commit_frame s w c Hc Hcnt), (branch_of_commit _ _ Hc Hcnt). cbn zeta.
    set (v := if py_eq c (PInt TrafficLight_RED) then w else PInt (-1)).
    set (s1 := set_state_count _ _).
    destruct (IH s1) as (Hp' & Hb' & Hs' & Hn').
    + subst s1. simpl. lia.
    + exact Hrest.
    + rewrite Hp', Hb', Hs', Hn'.
      repeat split; try reflexivity.
      * change (published s1) with (published s ++ [v]). now rewrite <- app_assoc.
      * subst s1. simpl state_count. simpl length. lia.
Qed.

(** C9. Once the count is at or above the threshold, every further frame
    whose colour equals the state takes the commit branch: the messages
    published are the frames' own commit values (the frame's stop index for
    RED, -1 otherwise), the hold branch is not taken, the state stays and
    the count keeps growing; so, for a RED state, two consecutive frames
    with stop indices [w1] and [w2] publish [w1] then [w2]. *)
Theorem committed_republishes_fresh_index (s : TLDetector) (frames : list (pyval * pyval)) :
  STATE_COUNT_THRESHOLD <= state_count s ->
  Forall (fun f => py_eq (state s) (snd f) = true) frames ->
  published (debounce frames s) =
    published s ++
    map (fun f => if py_eq (snd f) (PInt TrafficLight_RED) then fst f else PInt (-1)) frames /\
  branches frames s = replicate (length frames) Commit /\
  state (debounce frames s) = state s /\
  STATE_COUNT_THRESHOLD <= state_count (debounce frames s) /\
  (forall w1 w2 : pyval,
     py_eq (state s) (PInt TrafficLight_RED) = true ->
     published (debounce [(w1, PInt TrafficLight_RED); (w2, PInt TrafficLight_RED)] s) =
       published s ++ [w1; w2]).
Proof.
  intros Hcnt Hall.
  destruct (debounce_commit_run frames s Hcnt Hall) as (Hp & Hb & Hs & Hn).
  repeat split; try assumption.
  - rewrite Hn. lia.
  - intros w1 w2 Hred.
    destruct (debounce_commit_run
                [(w1, PInt TrafficLight_RED); (w2, PInt TrafficLight_RED)] s Hcnt)
      as (Hp2 & _).
    + repeat constructor; exact Hred.
    + rewrite Hp2. simpl. now rewrite py_eq_refl.
Qed.

(** C1 (amended). A colour that differs from the current state and is then
    observed on up to [STATE_COUNT_THRESHOLD] consecutive frames leaves the
    published output as it was: the first frame publishes nothing and each
    later one republishes [last_wp], which does not change. When exactly
    [STATE_COUNT_THRESHOLD] such frames have passed, the next frame of the
    same colour, the [STATE_COUNT_THRESHOLD + 1]-th, commits and publishes
    its commit value once. On every frame the count is set to 0 if the
    colour differs from the state, and then incremented. *)
Theorem new_color_commits_after_threshold
    (s : TLDetector) (c : pyval) (ws : list pyval) (w : pyval) :
  py_eq (state s) c = false ->
  (1 <= length ws)%nat ->
  Z.of_nat (length ws) <= STATE_COUNT_THRESHOLD ->
  let frames := map (fun w => (w, c)) ws in
  let s' := debounce frames s in
  published s' = published s ++ replicate (length ws - 1) (last_wp s) /\
  branches frames s = Switch :: replicate (length ws - 1) Hold /\
  last_wp s' = last_wp s /\
  last_state s' = last_state s /\
  state_count s' = Z.of_nat (length ws) /\
  (Z.of_nat (length ws) = STATE_COUNT_THRESHOLD ->
     let v := if py_eq c (PInt TrafficLight_RED) then w else PInt (-1) in
     branch_of s' c = Commit /\
     published (debounce [(w, c)] s') = published s' ++ [v] /\
     last_wp (debounce [(w, c)] s') = v) /\
  (forall (t : TLDetector) (lw st : pyval),
     state_count (state_of (publish_upcoming_red_light lw st t)) =
       (if py_ne (state t) st then 0 else state_count t) + 1).
Proof.
  intros Hne Hlen Hmax frames s'.
  destruct ws as [|w0 ws]; [simpl in Hlen; lia|].
  pose proof (branch_of_switch _ _ Hne) as Hb.
  subst s' frames. simpl map. rewrite debounce_cons. simpl branches.
  simpl fst. simpl snd. rewrite publish_upcoming_red_light_step, Hb.
  set (s1 := state_of (Ok tt, _)).
  destruct (debounce_hold_run c ws s1) as (Hp & Hbr & Hw & Hl & Hs & Hc).
  { subst s1. simpl. apply py_eq_refl. }
  { subst s1. simpl. simpl length in Hmax. lia. }
  cbn zeta in *.
  replace (length (w0 :: ws) - 1)%nat with (length ws) by (simpl; lia).
  assert (Hcount : state_count (debounce (map (fun w => (w, c)) ws) s1)
                   = Z.of_nat (length (w0 :: ws))).
  { rewrite Hc. subst s1. simpl state_count. simpl length. lia. }
  assert (Hsame : py_eq (state (debounce (map (fun w => (w, c)) ws) s1)) c = true).
  { rewrite Hs. subst s1. simpl. apply py_eq_refl. }
  repeat split.
  - rewrite Hp. reflexivity.
  - rewrite Hbr. reflexivity.
  - rewrite Hw. reflexivity.
  - rewrite Hl. reflexivity.
  - exact Hcount.
  - apply branch_of_commit; [exact Hsame | lia].
  - unfold debounce at 1. simpl deliver. simpl fst. simpl snd.
    rewrite commit_frame; [reflexivity | exact Hsame | lia].
  - unfold debounce at 1. simpl deliver. simpl fst. simpl snd.
    rewrite commit_frame; [reflexivity | exact Hsame | lia].
  - intros t lw st. rewrite publish_upcoming_red_light_step. unfold branch_of.
    destruct (py_ne (state t) st); [reflexivity|].
    destruct (STATE_COUNT_THRESHOLD <=? state_count t); reflexivity.
Qed.

(** ** Path deliveries *)

Lemma waypoints_cb_built (q : list Waypoint) (s : TLDetector) :
  truthy_list (waypoints_2d s) = true ->
  waypoints_cb q s = (Ok tt, set_waypoints (Some q) s).
Proof.
  intros Hb. unfold waypoints_cb. run. now rewrite Hb.
Qed.



Lemma deliver_app {A : Type} (cb : A -> M unit) (xs ys : list A) (s : TLDetector) :
  deliver cb (xs ++ ys) s = deliver cb ys (deliver cb xs s).
Proof.
  revert s. induction xs as [|x xs IH]; intros s; [reflexivity | apply IH].
Qed.


(** Once the index holds a non-empty path, a delivery only replaces the
    stored path. *)
Lemma deliver_after_build (qs : list (list Waypoint)) :
  forall s : TLDetector,
  truthy_list (waypoints_2d s) = true ->
  waypoints_2d (deliver waypoints_cb qs s) = waypoints_2d s /\
  waypoint_tree (deliver waypoints_cb qs s) = waypoint_tree s /\
  calls (deliver waypoints_cb qs s) = calls s /\
  waypoints (deliver waypoints_cb qs s) =
    match last qs with Some q => Some q | None => waypoints s end.
Proof.
  induction qs as [|q qs IH]; intros s Hb; [repeat split; reflexivity|].
  simpl deliver. rewrite (waypoints_cb_built q s Hb).
  destruct (IH (set_waypoints (Some q) s) Hb) as (H2d & Ht & Hc & Hw).
  unfold state_of; simpl snd. rewrite H2d, Ht, Hc, Hw.
  repeat split. rewrite last_cons. now destruct (last qs).
Qed.



(** ** Frame processing without a pose or without a path *)

Lemma no_pose_value (s : TLDetector) :
  pose s = None ->
  value_of (process_traffic_lights s) = Ok (PInt (-1), PInt TrafficLight_UNKNOWN).
Proof.
  intros Hp. unfold process_traffic_lights. run. now rewrite Hp.
Qed.

(** C5. With no pose known, [process_traffic_lights] returns
    [(-1, UNKNOWN)] at once: the object is left exactly as it was, so no
    nearest-waypoint query is made and no light is looked at (the log of
    outgoing calls is unchanged), whether or not a path or lights are
    there. *)
Theorem process_traffic_lights_no_pose (s : TLDetector) :
  pose s = None ->
  process_traffic_lights s = (Ok (PInt (-1), PInt TrafficLight_UNKNOWN), s).
Proof.
  intros Hp. unfold process_traffic_lights. run. now rewrite Hp.
Qed.

(** C6 (the code at the failing input). With a pose known and no tree
    built, the frame handler raises on the first nearest-waypoint query:
    the frame publishes nothing and the debouncer is not run. *)
Theorem image_cb_before_path_raises (s : TLDetector) (p : point) (msg : Image) :
  pose s = Some p ->
  waypoint_tree s = None ->
  value_of (image_cb msg s) = Raise AttributeError /\
  published (state_of (image_cb msg s)) = published s /\
  state_count (state_of (image_cb msg s)) = state_count s.
Proof.
  intros Hp Ht. unfold image_cb, process_traffic_lights, get_closest_waypoint.
  run. rewrite Hp. destruct p as [px py]. simpl. rewrite Ht. simpl.
  repeat split; reflexivity.
Qed.

(** ** The selection loop *)

Section Selection.
Variables (car : Z) (slp : list point).

(** One turn of the loop. *)
Lemma closest_light_loop_cons (i : nat) (light : TrafficLight)
    (rest : list TrafficLight) (cl : option TrafficLight) (diff : Z)
    (lw : option Z) (s : TLDetector) :
  closest_light_loop car slp i (light :: rest) (cl, diff, lw) s =
  match slp !! i with
  | None => (Raise IndexError, s)
  | Some line =>
      match waypoint_tree s with
      | None => (Raise AttributeError, s)
      | Some t =>
          let temp_wp_idx := KDTree_query t (fst line) (snd line) in
          let distance := temp_wp_idx - car in
          closest_light_loop car slp (S i) rest
            (if (0 <=? distance) && (distance <? diff)
             then (Some light, distance, Some temp_wp_idx)
             else (cl, diff, lw))
            (set_calls (CallQuery (fst line) (snd line) :: calls s) s)
      end
  end.
Proof.
  simpl. destruct (slp !! i) as [line|]; [|reflexivity].
  unfold get_closest_waypoint. run. destruct (waypoint_tree s); reflexivity.
Qed.

(** The loop only adds to the log of calls, and its value does not depend
    on that log. *)
Lemma closest_light_loop_calls (ls : list TrafficLight) :
  forall (i : nat) (acc : selection) (s : TLDetector) (c : list Call),
  exists c' : list Call,
    closest_light_loop car slp i ls acc (set_calls c s) =
    (value_of (closest_light_loop car slp i ls acc s), set_calls c' s).
Proof.
  induction ls as [|light rest IH]; intros i acc s c.
  - exists c. reflexivity.
  - destruct acc as [[cl diff] lw]. rewrite !closest_light_loop_cons.
    destruct (slp !! i) as [line|]; [|exists c; reflexivity].
    change (waypoint_tree (set_calls c s)) with (waypoint_tree s).
    destruct (waypoint_tree s) as [t|]; [|exists c; reflexivity].
    cbn zeta.
    match goal with
    | |- context [closest_light_loop car slp (S i) rest ?a _] => set (acc' := a)
    end.
    set (q := CallQuery (fst line) (snd line)).
    change (set_calls (q :: calls (set_calls c s)) (set_calls c s))
      with (set_calls (q :: c) s).
    destruct (IH (S i) acc' s (q :: c)) as [c1 H1].
    destruct (IH (S i) acc' s (q :: calls s)) as [c2 H2].
    exists c1. rewrite H1, H2. reflexivity.
Qed.

Lemma get_closest_light_in_front_calls (s : TLDetector) (c : list Call) :
  exists c' : list Call,
    get_closest_light_in_front car slp (set_calls c s) =
    (value_of (get_closest_light_in_front car slp s), set_calls c' s).
Proof.
  unfold get_closest_light_in_front. run.
  destruct (waypoints s) as [w|]; [|exists c; reflexivity].
  destruct (closest_light_loop_calls (lights s) 0
              (None, Z.of_nat (length w), None) s c) as [c1 H1].
  exists c1. change (lights (set_calls c s)) with (lights s). exact H1.
Qed.

(** With a tree and enough stop lines the loop runs to its end and returns
    what [select_from] computes from the tree's answers. *)
Lemma closest_light_loop_value (t : KDTree_t) (ls : list TrafficLight) :
  forall (i : nat) (acc : selection) (s : TLDetector),
  waypoint_tree s = Some t ->
  (i + length ls <= length slp)%nat ->
  value_of (closest_light_loop car slp i ls acc s) =
    Ok (select_from car (stop_line_wp t slp) i ls acc).
Proof.
  induction ls as [|light rest IH]; intros i acc s Ht Hlen; [reflexivity|].
  destruct acc as [[cl diff] lw]. rewrite closest_light_loop_cons.
  simpl length in Hlen.
  destruct (lookup_lt_is_Some_2 slp i) as [line Hline]; [lia|].
  assert (Hidx : stop_line_wp t slp i = KDTree_query t (fst line) (snd line))
    by (unfold stop_line_wp; now rewrite Hline).
  simpl select_from. rewrite Hline, Ht, Hidx. cbn zeta.
  apply IH; [exact Ht | lia].
Qed.

(** The invariant of the loop: one more light keeps [first_minimum]. *)
Lemma first_minimum_step (L : list TrafficLight) (n : Z) (idx : nat -> Z)
    (i : nat) (light : TrafficLight) (cl : option TrafficLight) (diff : Z)
    (lw : option Z) :
  L !! i = Some light ->
  first_minimum L n car idx i (cl, diff, lw) ->
  first_minimum L n car idx (S i)
    (if (0 <=? idx i - car) && (idx i - car <? diff)
     then (Some light, idx i - car, Some (idx i))
     else (cl, diff, lw)).
Proof.
  intros Hi Hinv.
  assert (Hsplit : forall j, (j < S i)%nat -> (j < i)%nat \/ j = i) by lia.
  destruct (Z.leb_spec 0 (idx i - car)) as [H0|H0];
    destruct (Z.ltb_spec (idx i - car) diff) as [H1|H1]; simpl andb; cbv iota.
  - (* the light is taken *)
    destruct cl as [l0|], lw as [ix|]; simpl in Hinv; try contradiction.
    + destruct Hinv as (k & Hk & _ & _ & -> & Hel & Hmin & _).
      simpl. exists i. repeat split; try lia; try assumption.
      * intros j Hj Helj. destruct (Hsplit j Hj) as [Hlt| ->]; [|lia].
        specialize (Hmin j Hlt Helj). lia.
      * intros j Hj Helj. specialize (Hmin j Hj Helj). lia.
    + destruct Hinv as [-> Hnone].
      simpl. exists i. repeat split; try lia; try assumption.
      * intros j Hj Helj. destruct (Hsplit j Hj) as [Hlt| ->]; [|lia].
        now destruct (Hnone j Hlt).
      * intros j Hj Helj. now destruct (Hnone j Hj).
  - (* not nearer than the light held *)
    destruct cl as [l0|], lw as [ix|]; simpl in Hinv |- *; try contradiction.
    + destruct Hinv as (k & Hk & Hlk & -> & -> & Hel & Hmin & Hfirst).
      exists k. repeat split; try lia; try assumption.
      intros j Hj Helj. destruct (Hsplit j Hj) as [Hlt| ->]; [|lia].
      now apply Hmin.
    + destruct Hinv as [-> Hnone]. split; [reflexivity|].
      intros j Hj. destruct (Hsplit j Hj) as [Hlt| ->]; [now apply Hnone | lia].
  - (* behind the car *)
    destruct cl as [l0|], lw as [ix|]; simpl in Hinv |- *; try contradiction.
    + destruct Hinv as (k & Hk & Hlk & -> & -> & Hel & Hmin & Hfirst).
      exists k. repeat split; try lia; try assumption.
      intros j Hj Helj. destruct (Hsplit j Hj) as [Hlt| ->]; [|lia].
      now apply Hmin.
    + destruct Hinv as [-> Hnone]. split; [reflexivity|].
      intros j Hj. destruct (Hsplit j Hj) as [Hlt| ->]; [now apply Hnone | lia].
  - (* behind the car, and the light held is eligible: nothing to show *)
    destruct cl as [l0|], lw as [ix|]; simpl in Hinv |- *; try contradiction.
    + destruct Hinv as (k & Hk & Hlk & -> & -> & Hel & Hmin & Hfirst). lia.
    + destruct Hinv as [-> Hnone]. split; [reflexivity|].
      intros j Hj. destruct (Hsplit j Hj) as [Hlt| ->]; [now apply Hnone | lia].
Qed.

Lemma select_from_first_minimum (L : list TrafficLight) (n : Z) (idx : nat -> Z)
    (ls : list TrafficLight) :
  forall (pre : list TrafficLight) (acc : selection),
  L = pre ++ ls ->
  first_minimum L n car idx (length pre) acc ->
  first_minimum L n car idx (length L) (select_from car idx (length pre) ls acc).
Proof.
  induction ls as [|light rest IH]; intros pre acc HL Hinv.
  - simpl. rewrite app_nil_r in HL. subst L. exact Hinv.
  - destruct acc as [[cl diff] lw]. simpl select_from.
    replace (S (length pre)) with (length (pre ++ [light]))
      by (rewrite length_app; simpl; lia).
    apply IH.
    + rewrite HL, <- app_assoc. reflexivity.
    + rewrite length_app. simpl length.
      replace (length pre + 1)%nat with (S (length pre)) by lia.
      apply first_minimum_step; [|exact Hinv].
      rewrite HL. rewrite lookup_app_r by lia.
      now rewrite Nat.sub_diag.
Qed.

(** Lights that are all behind the car leave the loop's variables alone. *)
Lemma select_from_behind (idx : nat -> Z) (ls : list TrafficLight) :
  forall (i : nat) (acc : selection),
  (forall j, (i <= j < i + length ls)%nat -> idx j - car < 0) ->
  select_from car idx i ls acc = acc.
Proof.
  induction ls as [|light rest IH]; intros i acc Hneg; [reflexivity|].
  destruct acc as [[cl diff] lw]. simpl select_from. simpl length in Hneg.
  destruct (Z.leb_spec 0 (idx i - car)) as [H0|H0].
  - specialize (Hneg i). lia.
  - simpl andb. cbv iota. apply IH. intros j Hj. apply Hneg. lia.
Qed.

End Selection.

(** X14. With a path stored, a tree built and a stop line for every
    light, the selection returns. A light is eligible when its distance
    [d j] is at least 0 and below the length of the stored path, the bound
    the loop starts from. Either some light [k] is returned, with its
    distance and its stop-line index: it is eligible (so [d k] is not
    negative), no eligible light is nearer, and every eligible light before
    it is strictly farther (the first seen wins a tie); or nothing is
    returned, the distance is the length of the stored path, and no light
    is eligible. *)
Theorem closest_light_in_front_selects
    (s : TLDetector) (car : Z) (slp : list point)
    (wps : list Waypoint) (t : KDTree_t) :
  waypoints s = Some wps ->
  waypoint_tree s = Some t ->
  (length (lights s) <= length slp)%nat ->
  let n := Z.of_nat (length wps) in
  let d j := stop_line_wp t slp j - car in
  let r := value_of (get_closest_light_in_front car slp s) in
  (exists (k : nat) (light : TrafficLight),
      lights s !! k = Some light /\
      r = Ok (Some light, d k, Some (stop_line_wp t slp k)) /\
      0 <= d k < n /\
      (forall j, (j < length (lights s))%nat -> 0 <= d j < n -> d k <= d j) /\
      (forall j, (j < k)%nat -> 0 <= d j < n -> d k < d j))
  \/ (r = Ok (None, n, None) /\
      forall j, (j < length (lights s))%nat -> ~ (0 <= d j < n)).
Proof.
  intros Hw Ht Hlen n d r. subst r d. cbn beta.
  unfold get_closest_light_in_front. run. rewrite Hw.
  change (fst ?x) with (value_of x).
  rewrite (closest_light_loop_value car slp t (lights s) 0 _ s Ht) by lia.
  assert (Hinit : first_minimum (lights s) n car (stop_line_wp t slp) 0 (None, n, None))
    by (split; [reflexivity | intros j Hj; lia]).
  pose proof (select_from_first_minimum car (lights s) n (stop_line_wp t slp)
                (lights s) [] (None, n, None) eq_refl Hinit) as Hsel.
  simpl length in Hsel at 2.
  fold n.
  destruct (select_from car (stop_line_wp t slp) 0 (lights s) (None, n, None))
    as [[[light|] diff] [ix|]]; simpl in Hsel; try contradiction.
  - destruct Hsel as (k & Hk & Hlk & -> & -> & Hel & Hmin & Hfirst).
    left. exists k, light. repeat split; try assumption; lia.
  - destruct Hsel as [-> Hnone].
    right. split; [reflexivity | exact Hnone].
Qed.

(** C3. With a path stored, if the light list is empty, or if every light
    is behind the car (all [d j < 0], with a tree built and a stop line for
    every light), the selection returns no light and no stop index, and the
    distance it returns is the number of waypoints of the stored path. *)
Theorem no_light_in_front
    (s : TLDetector) (car : Z) (slp : list point) (wps : list Waypoint) :
  waypoints s = Some wps ->
  (lights s = [] \/
   exists t : KDTree_t,
     waypoint_tree s = Some t /\
     (length (lights s) <= length slp)%nat /\
     forall j, (j < length (lights s))%nat -> stop_line_wp t slp j - car < 0) ->
  value_of (get_closest_light_in_front car slp s)
  = Ok (None, Z.of_nat (length wps), None).
Proof.
  intros Hw Hcase. unfold get_closest_light_in_front. run. rewrite Hw.
  destruct Hcase as [Hnil | (t & Ht & Hlen & Hneg)].
  - rewrite Hnil. reflexivity.
  - change (fst ?x) with (value_of x).
    rewrite (closest_light_loop_value car slp t (lights s) 0 _ s Ht) by lia.
    rewrite select_from_behind; [reflexivity|].
    intros j Hj. apply Hneg. lia.
Qed.

(** ** Frame processing with a pose and a tree *)

Lemma get_closest_waypoint_ok (t : KDTree_t) (x y : coord) (s : TLDetector) :
  waypoint_tree s = Some t ->
  get_closest_waypoint x y s =
    (Ok (KDTree_query t x y), set_calls (CallQuery x y :: calls s) s).
Proof. intros Ht. unfold get_closest_waypoint. run. now rewrite Ht. Qed.

(** What [get_light_state] returns does not depend on the log of calls. *)
Lemma get_light_state_calls (light : TrafficLight) (s : TLDetector) (c : list Call) :
  value_of (get_light_state light (set_calls c s)) =
  value_of (get_light_state light s).
Proof.
  unfold get_light_state. run.
  change (has_image (set_calls c s)) with (has_image s).
  destruct (has_image s) as [[|]|]; try reflexivity.
  change (camera_image (set_calls c s)) with (camera_image s).
  destruct (camera_image s); reflexivity.
Qed.

(** The value of [process_traffic_lights] from those of the selection and
    of the colour query. *)
Lemma process_traffic_lights_value (s : TLDetector) (px py : coord) (t : KDTree_t) :
  pose s = Some (px, py) ->
  waypoint_tree s = Some t ->
  value_of (process_traffic_lights s) =
  match value_of (get_closest_light_in_front (KDTree_query t px py)
                    (config_stop_line_positions s) s) with
  | Ok (Some light, d, lw) =>
      if d <? WAYPOINT_LOOKAHEAD then
        match value_of (get_light_state light s) with
        | Ok st => Ok (py_of_index lw, st)
        | Raise e => Raise e
        end
      else Ok (PInt (-1), PInt TrafficLight_UNKNOWN)
  | Ok (None, _, _) => Ok (PInt (-1), PInt TrafficLight_UNKNOWN)
  | Raise e => Raise e
  end.
Proof.
  intros Hp Ht. unfold process_traffic_lights, bind at 1 2 3, read.
  rewrite Hp. unfold bind at 1. rewrite (get_closest_waypoint_ok t px py s Ht).
  unfold bind at 1.
  destruct (get_closest_light_in_front_calls (KDTree_query t px py)
              (config_stop_line_positions s) s (CallQuery px py :: calls s))
    as [c' Hc].
  rewrite Hc.
  destruct (value_of (get_closest_light_in_front _ _ s)) as [[[cl d] lw]|e];
    [|reflexivity].
  destruct cl as [light|]; [|reflexivity].
  destruct (d <? WAYPOINT_LOOKAHEAD); [|reflexivity].
  rewrite <- (get_light_state_calls light s c').
  unfold bind, value_of. simpl.
  destruct (get_light_state light (set_calls c' s)) as [[st|e] s2]; reflexivity.
Qed.

(** A light comes with its stop index. *)
Lemma closest_light_loop_index (car : Z) (slp : list point) (ls : list TrafficLight) :
  forall (i : nat) (acc : selection) (s : TLDetector)
         (cl : option TrafficLight) (d : Z) (lw : option Z),
  (is_Some (fst (fst acc)) -> is_Some (snd acc)) ->
  value_of (closest_light_loop car slp i ls acc s) = Ok (cl, d, lw) ->
  is_Some cl -> is_Some lw.
Proof.
  induction ls as [|light rest IH]; intros i acc s cl d lw Hacc Hv Hcl.
  - simpl in Hv. injection Hv as ->. now apply Hacc.
  - destruct acc as [[cl0 d0] lw0]. rewrite closest_light_loop_cons in Hv.
    destruct (slp !! i) as [line|]; [|discriminate].
    destruct (waypoint_tree s) as [t|]; [|discriminate].
    cbn zeta in Hv. eapply IH; [|exact Hv|exact Hcl].
    destruct (_ && _); simpl; [eauto | exact Hacc].
Qed.

Lemma get_closest_light_in_front_index (car : Z) (slp : list point) (s : TLDetector)
    (cl : option TrafficLight) (d : Z) (lw : option Z) :
  value_of (get_closest_light_in_front car slp s) = Ok (cl, d, lw) ->
  is_Some cl -> is_Some lw.
Proof.
  unfold get_closest_light_in_front. run.
  destruct (waypoints s) as [w|]; [|discriminate].
  apply closest_light_loop_index. simpl. intros [x Hx]. discriminate.
Qed.

(** C4. In a frame (image flag set, image stored) with a pose and a tree,
    let the selection return light [cl], distance [d] and stop index [lw].
    If a light was selected and [d < WAYPOINT_LOOKAHEAD] (100), the result
    is that light's stop index, an integer, with the colour the classifier
    finds in the frame's image; otherwise, with no light or with
    [d >= 100], the result is [(-1, UNKNOWN)]. *)
Theorem process_traffic_lights_lookahead
    (s : TLDetector) (msg : Image) (px py : coord) (t : KDTree_t)
    (cl : option TrafficLight) (d : Z) (lw : option Z) :
  pose s = Some (px, py) ->
  waypoint_tree s = Some t ->
  has_image s = Some true ->
  camera_image s = Some msg ->
  value_of (get_closest_light_in_front (KDTree_query t px py)
              (config_stop_line_positions s) s) = Ok (cl, d, lw) ->
  value_of (process_traffic_lights s) =
    Ok (match cl with
        | Some _ =>
            if d <? WAYPOINT_LOOKAHEAD
            then (py_of_index lw, get_classification (imgmsg_to_cv2 msg))
            else (PInt (-1), PInt TrafficLight_UNKNOWN)
        | None => (PInt (-1), PInt TrafficLight_UNKNOWN)
        end) /\
  (is_Some cl -> exists idx : Z, lw = Some idx /\ py_of_index lw = PInt idx) /\
  (WAYPOINT_LOOKAHEAD <= d ->
   value_of (process_traffic_lights s) = Ok (PInt (-1), PInt TrafficLight_UNKNOWN)).
Proof.
  intros Hp Ht Hflag Himg Hsel.
  assert (Hcol : forall light,
             value_of (get_light_state light s)
             = Ok (get_classification (imgmsg_to_cv2 msg))).
  { intros light. unfold get_light_state. run. now rewrite Hflag, Himg. }
  rewrite (process_traffic_lights_value s px py t Hp Ht), Hsel.
  repeat split.
  - destruct cl as [light|]; [|reflexivity].
    destruct (d <? WAYPOINT_LOOKAHEAD); [|reflexivity].
    now rewrite Hcol.
  - intros Hcl.
    destruct (get_closest_light_in_front_index _ _ _ _ _ _ Hsel Hcl) as [idx ->].
    now exists idx.
  - intros Hfar. destruct cl as [light|]; [|reflexivity].
    destruct (Z.ltb_spec d WAYPOINT_LOOKAHEAD); [lia | reflexivity].
Qed.

End DetectorProperties.

(** * Concrete runs on the reference instance *)

Section Runs.
Import Reference.

(** C1 as worded does not hold: after four GREEN frames, three RED frames
    with stop index 7 take the branches switch, hold, hold; the third
    republishes the old -1 and [last_wp] is still -1, not 7. The same from
    the start: three RED frames publish -1 three times. The fourth RED frame
    is the one that publishes 7. *)
Lemma third_observation_republishes_old_value :
  branches (replicate 3 (PInt 7, RED)) green_stable = [Switch; Hold; Hold] /\
  published (debounce (replicate 3 (PInt 7, RED)) green_stable)
    = published green_stable ++ [PInt (-1); PInt (-1)] /\
  last_wp (debounce (replicate 3 (PInt 7, RED)) green_stable) = PInt (-1) /\
  last_wp (debounce (replicate 3 (PInt 7, RED)) green_stable) <> PInt 7 /\
  published (debounce (replicate 3 (PInt 7, RED)) fresh)
    = [PInt (-1); PInt (-1); PInt (-1)] /\
  published (debounce (replicate 4 (PInt 7, RED)) green_stable)
    = published green_stable ++ [PInt (-1); PInt (-1); PInt 7].
Proof.
  split; [reflexivity|]. split; [reflexivity|]. split; [reflexivity|].
  split; [|split; reflexivity].
  change (PInt (-1) <> PInt 7). discriminate.
Qed.

Lemma new_color_commits_after_threshold_witness :
  py_eq (state green_stable) RED = false /\
  (1 <= length [PInt 7; PInt 7; PInt 7])%nat /\
  Z.of_nat (length [PInt 7; PInt 7; PInt 7]) <= STATE_COUNT_THRESHOLD /\
  published (debounce [(PInt 7, RED)]
               (debounce (map (fun w => (w, RED)) [PInt 7; PInt 7; PInt 7]) green_stable))
  = published (debounce (map (fun w => (w, RED)) [PInt 7; PInt 7; PInt 7]) green_stable)
    ++ [PInt 7].
Proof.
  assert (H1 : py_eq (state green_stable) RED = false) by reflexivity.
  assert (H2 : (1 <= length [PInt 7; PInt 7; PInt 7])%nat) by (simpl; lia).
  assert (H3 : Z.of_nat (length [PInt 7; PInt 7; PInt 7]) <= STATE_COUNT_THRESHOLD)
    by (unfold STATE_COUNT_THRESHOLD; simpl; lia).
  split; [exact H1|]. split; [exact H2|]. split; [exact H3|].
  pose proof (new_color_commits_after_threshold green_stable RED
                [PInt 7; PInt 7; PInt 7] (PInt 7) H1 H2 H3) as H.
  cbv zeta in H. destruct H as (_ & _ & _ & _ & _ & Hcommit & _).
  specialize (Hcommit eq_refl). destruct Hcommit as (_ & Hp & _).
  exact Hp.
Defined.

(** C2 (the code at the failing input). A node is sent a 100-point path,
    a pose at its first point, one light whose stop line is at index 50,
    and then a 1-point path: the tree is still that of the first path, the
    stored path is the second. The light is 50 indices ahead of the car
    ([d = 50 >= 0], within the lookahead), yet the selection, whose bound
    starts from the length 1 of the stored path, returns no light, and the
    frame reports [(-1, UNKNOWN)]. *)
Lemma light_beyond_stored_path_not_selected :
  waypoint_tree stale_index = Some (waypoint_xy (line_path 100)) /\
  waypoints stale_index = Some (line_path 1) /\
  pose stale_index = Some (0, 0) /\
  lights stale_index = [light_at 50] /\
  config_stop_line_positions stale_index = [(50, 0)] /\
  KDTree_query (waypoint_xy (line_path 100)) 0 0 = 0 /\
  stop_line_wp (waypoint_xy (line_path 100)) [(50, 0)] 0 - 0 = 50 /\
  value_of (get_closest_light_in_front 0 [(50, 0)] stale_index) = Ok (None, 1, None) /\
  frame_output stale_index RED = Some (PInt (-1), PInt 4).
Proof.
  split; [reflexivity|]. split; [reflexivity|]. split; [reflexivity|].
  split; [reflexivity|]. split; [reflexivity|]. split; [reflexivity|].
  split; [reflexivity|]. split; reflexivity.
Qed.

Lemma closest_light_in_front_selects_witness :
  waypoints (driving 100 10 [50; 20; 20; 3]) = Some (line_path 100) /\
  waypoint_tree (driving 100 10 [50; 20; 20; 3]) = Some (waypoint_xy (line_path 100)) /\
  Nat.le (length (lights (driving 100 10 [50; 20; 20; 3])))
         (length [(50, 0); (20, 0); (20, 0); (3, 0)]) /\
  exists sel,
    value_of (get_closest_light_in_front 10 [(50, 0); (20, 0); (20, 0); (3, 0)]
                (driving 100 10 [50; 20; 20; 3])) = Ok sel.
Proof.
  assert (H1 : waypoints (driving 100 10 [50; 20; 20; 3]) = Some (line_path 100))
    by reflexivity.
  assert (H2 : waypoint_tree (driving 100 10 [50; 20; 20; 3])
               = Some (waypoint_xy (line_path 100))) by reflexivity.
  assert (H3 : Nat.le (length (lights (driving 100 10 [50; 20; 20; 3])))
                      (length [(50, 0); (20, 0); (20, 0); (3, 0)]))
    by (change (4 <= 4)%nat; lia).
  split; [exact H1|]. split; [exact H2|]. split; [exact H3|].
  destruct (closest_light_in_front_selects (driving 100 10 [50; 20; 20; 3]) 10
              [(50, 0); (20, 0); (20, 0); (3, 0)] (line_path 100)
              (waypoint_xy (line_path 100)) H1 H2 H3)
    as [(k & light & _ & Hr & _) | (Hr & _)]; eexists; exact Hr.
Defined.

Lemma no_light_in_front_witness :
  waypoints (driving 60 50 [5]) = Some (line_path 60) /\
  (forall j, Nat.lt j (length (lights (driving 60 50 [5]))) ->
     stop_line_wp (waypoint_xy (line_path 60)) [(5, 0)] j - 50 < 0) /\
  value_of (get_closest_light_in_front 50 [(5, 0)] (driving 60 50 [5]))
  = Ok (None, Z.of_nat (length (line_path 60)), None).
Proof.
  assert (H1 : waypoints (driving 60 50 [5]) = Some (line_path 60)) by reflexivity.
  assert (H2 : forall j, Nat.lt j (length (lights (driving 60 50 [5]))) ->
                 stop_line_wp (waypoint_xy (line_path 60)) [(5, 0)] j - 50 < 0).
  { intros j Hj. change (j < 1)%nat in Hj. assert (j = 0%nat) as -> by lia.
    reflexivity. }
  split; [exact H1|]. split; [exact H2|].
  apply (no_light_in_front (driving 60 50 [5]) 50 [(5, 0)] (line_path 60) H1).
  right. exists (waypoint_xy (line_path 60)).
  split; [reflexivity|]. split; [change (1 <= 1)%nat; lia | exact H2].
Defined.

Lemma process_traffic_lights_lookahead_witness :
  pose (framed RED (driving 10 2 [7])) = Some (2, 0) /\
  waypoint_tree (framed RED (driving 10 2 [7])) = Some (waypoint_xy (line_path 10)) /\
  has_image (framed RED (driving 10 2 [7])) = Some true /\
  camera_image (framed RED (driving 10 2 [7])) = Some RED /\
  value_of (get_closest_light_in_front 2 [(7, 0)] (framed RED (driving 10 2 [7])))
  = Ok (Some (light_at 7), 5, Some 7) /\
  value_of (process_traffic_lights (framed RED (driving 10 2 [7]))) = Ok (PInt 7, RED).
Proof.
  split; [reflexivity|]. split; [reflexivity|]. split; [reflexivity|].
  split; [reflexivity|]. split; [reflexivity|].
  exact (proj1 (process_traffic_lights_lookahead (framed RED (driving 10 2 [7])) RED
                  2 0 (waypoint_xy (line_path 10)) (Some (light_at 7)) 5 (Some 7)
                  eq_refl eq_refl eq_refl eq_refl eq_refl)).
Defined.

Lemma process_traffic_lights_no_pose_witness :
  pose no_pose = None /\
  process_traffic_lights no_pose = (Ok (PInt (-1), PInt 4), no_pose).
Proof.
  split; [reflexivity|].
  exact (process_traffic_lights_no_pose no_pose eq_refl).
Defined.

Lemma image_cb_before_path_raises_witness :
  pose no_path = Some (2, 0) /\
  waypoint_tree no_path = None /\
  value_of (image_cb RED no_path) = Raise AttributeError.
Proof.
  split; [reflexivity|]. split; [reflexivity|].
  exact (proj1 (image_cb_before_path_raises no_path (2, 0) RED eq_refl eq_refl)).
Defined.

Lemma commit_step_publishes_witness :
  py_eq (state red_counted) RED = true /\
  STATE_COUNT_THRESHOLD <= state_count red_counted /\
  published (state_of (publish_upcoming_red_light (PInt 7) RED red_counted))
  = published red_counted ++ [PInt 7].
Proof.
  assert (H1 : py_eq (state red_counted) RED = true) by reflexivity.
  assert (H2 : STATE_COUNT_THRESHOLD <= state_count red_counted)
    by (change (3 <= 3); lia).
  split; [exact H1|]. split; [exact H2|].
  pose proof (commit_step_publishes red_counted (PInt 7) RED H1 H2) as H.
  cbv zeta in H. destruct H as (_ & _ & Hp & _). exact Hp.
Defined.



Lemma committed_republishes_fresh_index_witness :
  STATE_COUNT_THRESHOLD <= state_count red_counted /\
  Forall (fun f => py_eq (state red_counted) (snd f) = true)
    [(PInt 7, RED); (PInt 6, RED)] /\
  published (debounce [(PInt 7, RED); (PInt 6, RED)] red_counted)
  = published red_counted ++ [PInt 7; PInt 6].
Proof.
  assert (H1 : STATE_COUNT_THRESHOLD <= state_count red_counted)
    by (change (3 <= 3); lia).
  assert (H2 : Forall (fun f => py_eq (state red_counted) (snd f) = true)
                 [(PInt 7, RED); (PInt 6, RED)])
    by (constructor; [reflexivity | constructor; [reflexivity | constructor]]).
  split; [exact H1|]. split; [exact H2|].
  destruct (committed_republishes_fresh_index red_counted
              [(PInt 7, RED); (PInt 6, RED)] H1 H2) as (Hp & _).
  exact Hp.
Defined.

End Runs.

(** * Further properties of the node *)

Section Debouncer.
Context `{Ext : External}.

(** One frame of the debouncer, field by field. *)
Lemma frame_fields (light_wp state' : pyval) (s : TLDetector) :
  let s' := state_of (publish_upcoming_red_light light_wp state' s) in
  let v := if py_eq state' (PInt TrafficLight_RED) then light_wp else PInt (-1) in
  match branch_of s state' with
  | Switch =>
      state s' = state' /\ state_count s' = 1 /\
      last_wp s' = last_wp s /\ last_state s' = last_state s /\
      published s' = published s
  | Commit =>
      state s' = state s /\ state_count s' = state_count s + 1 /\
      last_wp s' = v /\ last_state s' = state s /\
      published s' = published s ++ [v]
  | Hold =>
      state s' = state s /\ state_count s' = state_count s + 1 /\
      last_wp s' = last_wp s /\ last_state s' = last_state s /\
      published s' = published s ++ [last_wp s]
  end.
Proof.
  cbn zeta. rewrite publish_upcoming_red_light_step.
  destruct (branch_of s state'); repeat split; reflexivity.
Qed.

Lemma branch_of_same (s : TLDetector) (state' : pyval) :
  py_eq (state s) state' = true ->
  branch_of s state' = Commit \/ branch_of s state' = Hold.
Proof.
  intros Heq. unfold branch_of, py_ne. rewrite Heq. simpl.
  destruct (STATE_COUNT_THRESHOLD <=? state_count s); [now left | now right].
Qed.

(** A frame whose colour differs from the state publishes nothing and
    leaves [last_wp] and [last_state] alone; every other frame publishes
    exactly one message. *)
Lemma debounce_publishes_at_most_once (s : TLDetector) (light_wp state' : pyval) :
  let s' := state_of (publish_upcoming_red_light light_wp state' s) in
  (py_eq (state s) state' = false ->
   published s' = published s /\ last_wp s' = last_wp s /\
   last_state s' = last_state s) /\
  (py_eq (state s) state' = true ->
   exists v : pyval, published s' = published s ++ [v] /\ last_wp s' = v).
Proof.
  cbn zeta. pose proof (frame_fields light_wp state' s) as H. cbn zeta in H.
  split; intros Heq.
  - rewrite (branch_of_switch _ _ Heq) in H. tauto.
  - destruct (branch_of_same _ _ Heq) as [Hb|Hb]; rewrite Hb in H.
    + eexists. split; apply H.
    + exists (last_wp s). split; apply H.
Qed.

(** X2. Colours that flicker, each frame's differing from the one before,
    never get anything published: every frame takes the switch branch, and
    [last_wp] and [last_state] stay as they were. *)
Theorem flickering_publishes_nothing (frames : list (pyval * pyval)) :
  forall s : TLDetector,
  flickering (state s) frames ->
  published (debounce frames s) = published s /\
  branches frames s = replicate (length frames) Switch /\
  last_wp (debounce frames s) = last_wp s /\
  last_state (debounce frames s) = last_state s.
Proof.
  induction frames as [|[w c] frames IH]; intros s Hfl.
  - repeat split; reflexivity.
  - destruct Hfl as [Hne Hrest]. simpl snd in *.
    pose proof (frame_fields w c s) as H. cbn zeta in H.
    rewrite (branch_of_switch _ _ Hne) in H.
    destruct H as (Hs & _ & Hw & Hl & Hp).
    rewrite debounce_cons. simpl branches. simpl fst. simpl snd.
    destruct (IH (state_of (publish_upcoming_red_light w c s))) as (Hp' & Hb' & Hw' & Hl').
    + rewrite Hs. exact Hrest.
    + rewrite Hp', Hb', Hw', Hl', Hp, Hw, Hl, (branch_of_switch _ _ Hne).
      repeat split; reflexivity.
Qed.

(** X3. Whatever a run of the debouncer publishes is a value published
    before, the [last_wp] it started with, -1, or the stop index of a frame
    whose colour is RED: the stop index of a frame of another colour is
    never published. *)
Theorem published_values_come_from_red_frames (frames : list (pyval * pyval)) :
  forall (s : TLDetector) (v : pyval),
  In v (last_wp (debounce frames s) :: published (debounce frames s)) ->
  In v (published s) \/ v = last_wp s \/ v = PInt (-1) \/
  exists f, In f frames /\ py_eq (snd f) (PInt TrafficLight_RED) = true /\ v = fst f.
Proof.
  induction frames as [|[w c] frames IH]; intros s v Hin.
  - simpl in Hin. destruct Hin as [<- | Hin]; [now right; left | now left].
  - rewrite debounce_cons in Hin. simpl fst in Hin. simpl snd in Hin.
    apply IH in Hin.
    pose proof (frame_fields w c s) as H. cbn zeta in H.
    assert (Hv : PInt (-1) = (if py_eq c (PInt TrafficLight_RED) then w else PInt (-1))
                 \/ (py_eq c (PInt TrafficLight_RED) = true /\
                     w = (if py_eq c (PInt TrafficLight_RED) then w else PInt (-1)))).
    { destruct (py_eq c (PInt TrafficLight_RED)); [right | left]; auto. }
    destruct Hin as [Hin | [Hin | [Hin | (f & Hf & Hred & Hfv)]]].
    + destruct (branch_of s c); destruct H as (_ & _ & _ & _ & Hp);
        rewrite Hp in Hin; try (now left);
        apply in_app_or in Hin; destruct Hin as [Hin | [<- | []]];
        try (now left); try (now right; left).
      destruct Hv as [<- | [Hred <-]]; [now right; right; left|].
      right; right; right. exists (w, c). simpl. auto.
    + destruct (branch_of s c); destruct H as (_ & _ & Hw & _);
        rewrite Hw in Hin; try (now right; left).
      subst v. destruct Hv as [<- | [Hred <-]]; [now right; right; left|].
      right; right; right. exists (w, c). simpl. auto.
    + now right; right; left.
    + right; right; right. exists f. simpl. auto.
Qed.

(** A run of frames of the colour of the state: the state stays and every
    frame adds one to the count. *)
Lemma same_colour_run (c : pyval) (ws : list pyval) :
  forall s : TLDetector,
  py_eq (state s) c = true ->
  state (debounce (map (fun w => (w, c)) ws) s) = state s /\
  state_count (debounce (map (fun w => (w, c)) ws) s)
    = state_count s + Z.of_nat (length ws).
Proof.
  induction ws as [|w ws IH]; intros s Heq.
  - unfold debounce. simpl. split; [reflexivity | lia].
  - simpl map. rewrite debounce_cons. simpl fst. simpl snd.
    pose proof (frame_fields w c s) as H. cbn zeta in H.
    assert (Hs : state (state_of (publish_upcoming_red_light w c s)) = state s /\
                 state_count (state_of (publish_upcoming_red_light w c s))
                 = state_count s + 1).
    { destruct (branch_of_same _ _ Heq) as [Hb|Hb]; rewrite Hb in H; tauto. }
    destruct Hs as [Hs Hc].
    destruct (IH (state_of (publish_upcoming_red_light w c s))) as [Hs' Hc'].
    + now rewrite Hs.
    + rewrite Hs', Hc', Hs, Hc. simpl length. split; [reflexivity | lia].
Qed.

(** Frames of one colour, [STATE_COUNT_THRESHOLD] or more of them, bring
    the state to that colour and the count to the threshold. *)
Lemma steady_colour_reaches_threshold (s : TLDetector) (c : pyval) (ws : list pyval) :
  0 <= state_count s ->
  STATE_COUNT_THRESHOLD <= Z.of_nat (length ws) ->
  let s' := debounce (map (fun w => (w, c)) ws) s in
  py_eq (state s') c = true /\ STATE_COUNT_THRESHOLD <= state_count s'.
Proof.
  intros Hcnt Hlen s'. subst s'. destruct ws as [|w0 ws].
  - unfold STATE_COUNT_THRESHOLD in Hlen. simpl in Hlen. lia.
  - simpl map. rewrite debounce_cons. simpl fst. simpl snd.
    pose proof (frame_fields w0 c s) as H. cbn zeta in H.
    set (s1 := state_of (publish_upcoming_red_light w0 c s)) in *.
    assert (H1 : py_eq (state s1) c = true /\ 1 <= state_count s1).
    { destruct (py_eq (state s) c) eqn:Heq.
      - destruct (branch_of_same _ _ Heq) as [Hb|Hb]; rewrite Hb in H;
          destruct H as (Hs & Hc & _); rewrite Hs, Hc; split; auto; lia.
      - rewrite (branch_of_switch _ _ Heq) in H.
        destruct H as (Hs & Hc & _). rewrite Hs, Hc.
        split; [apply py_eq_refl | lia]. }
    destruct H1 as [Heq1 Hc1].
    destruct (same_colour_run c ws s1 Heq1) as [Hs' Hc'].
    rewrite Hs', Hc'. split; [exact Heq1|]. simpl length in Hlen. lia.
Qed.

(** X4. From any state whose count is not negative, once a colour has been
    observed on [STATE_COUNT_THRESHOLD] or more consecutive frames, the next
    frame of that colour commits: it publishes its commit value (its stop
    index for RED, -1 otherwise) and stores it in [last_wp], whatever the
    state and the count were before. *)
Theorem steady_colour_commits (s : TLDetector) (c : pyval) (ws : list pyval) (w : pyval) :
  0 <= state_count s ->
  STATE_COUNT_THRESHOLD <= Z.of_nat (length ws) ->
  let s' := debounce (map (fun w => (w, c)) ws) s in
  let v := if py_eq c (PInt TrafficLight_RED) then w else PInt (-1) in
  branch_of s' c = Commit /\
  published (debounce [(w, c)] s') = published s' ++ [v] /\
  last_wp (debounce [(w, c)] s') = v.
Proof.
  intros Hcnt Hlen s' v.
  destruct (steady_colour_reaches_threshold s c ws Hcnt Hlen) as [Heq Hthr].
  fold s' in Heq, Hthr.
  split; [now apply branch_of_commit|].
  unfold debounce at 1 2. simpl deliver. simpl fst. simpl snd.
  rewrite (commit_frame s' w c Heq Hthr). split; reflexivity.
Qed.

Lemma debounce_app_run (fs gs : list (pyval * pyval)) (s : TLDetector) :
  debounce (fs ++ gs) s = debounce gs (debounce fs s).
Proof. unfold debounce. apply deliver_app. Qed.

End Debouncer.

Section SelectionEffects.
Context `{Ext : External}.
Variables (car : Z) (slp : list point).

Local Abbreviation query_of := (fun line : point => CallQuery (fst line) (snd line)).

Lemma set_calls_same (s : TLDetector) : set_calls (calls s) s = s.
Proof. now destruct s. Qed.

(** The loop, run to its end, has asked the tree once per light, in the
    order of the stop lines, and has changed nothing else. *)
Lemma closest_light_loop_state (t : KDTree_t) (ls : list TrafficLight) :
  forall (i : nat) (acc : selection) (s : TLDetector),
  waypoint_tree s = Some t ->
  (i + length ls <= length slp)%nat ->
  state_of (closest_light_loop car slp i ls acc s) =
    set_calls (rev (map query_of (take (length ls) (drop i slp))) ++ calls s) s.
Proof.
  induction ls as [|light rest IH]; intros i acc s Ht Hlen.
  - simpl. now rewrite set_calls_same.
  - destruct acc as [[cl diff] lw]. rewrite closest_light_loop_cons.
    simpl length in Hlen |- *.
    destruct (lookup_lt_is_Some_2 slp i) as [line Hline]; [lia|].
    rewrite Hline, Ht. cbn zeta.
    rewrite IH; [| exact Ht | lia].
    rewrite (drop_S slp line i Hline). simpl.
    now rewrite <- app_assoc.
Qed.

(** With fewer stop lines than lights left, the loop raises when it runs
    out of stop lines, after a query for each stop line there was. *)
Lemma closest_light_loop_index_error (t : KDTree_t) (ls : list TrafficLight) :
  forall (i : nat) (acc : selection) (s : TLDetector),
  waypoint_tree s = Some t ->
  (i <= length slp)%nat ->
  (length slp < i + length ls)%nat ->
  closest_light_loop car slp i ls acc s =
    (Raise IndexError, set_calls (rev (map query_of (drop i slp)) ++ calls s) s).
Proof.
  induction ls as [|light rest IH]; intros i acc s Ht Hi Hlen.
  - simpl in Hlen. lia.
  - destruct acc as [[cl diff] lw]. rewrite closest_light_loop_cons.
    simpl length in Hlen.
    destruct (slp !! i) as [line|] eqn:Hline.
    + rewrite Ht. cbn zeta.
      assert (i < length slp)%nat by (apply lookup_lt_is_Some; eauto).
      rewrite IH; [| exact Ht | lia | lia].
      rewrite (drop_S slp line i Hline). simpl.
      now rewrite <- app_assoc.
    + apply lookup_ge_None in Hline.
      rewrite drop_ge by lia. simpl. now rewrite set_calls_same.
Qed.

End SelectionEffects.

Section Selection2.
Context `{Ext : External}.

(** X5. With a path stored, a tree built and a stop line for every light,
    the selection asks the tree exactly once per light, for the stop lines
    in their order, and changes nothing else of the node. *)
Theorem selection_queries_every_stop_line
    (s : TLDetector) (car : Z) (slp : list point)
    (wps : list Waypoint) (t : KDTree_t) :
  waypoints s = Some wps ->
  waypoint_tree s = Some t ->
  (length (lights s) <= length slp)%nat ->
  state_of (get_closest_light_in_front car slp s) =
    set_calls (stop_line_queries (length (lights s)) slp ++ calls s) s.
Proof.
  intros Hw Ht Hlen. unfold get_closest_light_in_front, bind, read.
  rewrite Hw. unfold stop_line_queries.
  rewrite (closest_light_loop_state car slp t (lights s) 0 _ s Ht) by lia.
  now rewrite drop_0.
Qed.

(** X6. With a path stored and a tree built, the selection raises
    [IndexError] as soon as there are fewer stop lines than lights, having
    queried the tree for every stop line there is; stop lines in excess of
    the lights are ignored. *)
Theorem too_few_stop_lines_raises
    (s : TLDetector) (car : Z) (slp : list point)
    (wps : list Waypoint) (t : KDTree_t) :
  waypoints s = Some wps ->
  waypoint_tree s = Some t ->
  (length slp < length (lights s))%nat ->
  get_closest_light_in_front car slp s =
    (Raise IndexError,
     set_calls (stop_line_queries (length slp) slp ++ calls s) s).
Proof.
  intros Hw Ht Hlen. unfold get_closest_light_in_front, bind, read.
  rewrite Hw. unfold stop_line_queries.
  rewrite (closest_light_loop_index_error car slp t (lights s) 0 _ s Ht) by lia.
  now rewrite drop_0, firstn_all.
Qed.

End Selection2.

(** ** What frame processing leaves alone *)

Section Quiet.
Context `{Ext : External}.

(** A method is quiet when it leaves [kept_of] alone. *)
Local Abbreviation quiet m := (forall s : TLDetector, kept_of (state_of (m s)) = kept_of s).

Lemma bind_quiet {A B : Type} (m : M A) (k : A -> M B) :
  quiet m -> (forall a, quiet (k a)) -> quiet (bind m k).
Proof.
  intros Hm Hk s. unfold bind. specialize (Hm s).
  destruct (m s) as [[a|e] s1]; simpl in Hm.
  - now rewrite Hk.
  - exact Hm.
Qed.

Lemma get_closest_waypoint_quiet (x y : coord) : quiet (get_closest_waypoint x y).
Proof.
  intros s. unfold get_closest_waypoint, bind, read.
  destruct (waypoint_tree s); reflexivity.
Qed.

Lemma closest_light_loop_quiet (car : Z) (slp : list point) (ls : list TrafficLight) :
  forall (i : nat) (acc : selection), quiet (closest_light_loop car slp i ls acc).
Proof.
  induction ls as [|light rest IH]; intros i acc s; [reflexivity|].
  destruct acc as [[cl diff] lw]. rewrite closest_light_loop_cons.
  destruct (slp !! i) as [line|]; [|reflexivity].
  destruct (waypoint_tree s) as [t|]; [|reflexivity].
  cbn zeta. now rewrite IH.
Qed.

Lemma get_closest_light_in_front_quiet (car : Z) (slp : list point) :
  quiet (get_closest_light_in_front car slp).
Proof.
  intros s. unfold get_closest_light_in_front, bind, read.
  destruct (waypoints s); [apply closest_light_loop_quiet | reflexivity].
Qed.

Lemma get_light_state_quiet (light : TrafficLight) : quiet (get_light_state light).
Proof.
  intros s. unfold get_light_state, bind, read, write, call, raise, ret. simpl.
  destruct (has_image s) as [[|]|]; try reflexivity.
  destruct (camera_image s); reflexivity.
Qed.

Lemma process_traffic_lights_quiet : quiet process_traffic_lights.
Proof.
  unfold process_traffic_lights.
  apply bind_quiet; [reflexivity | intros slp].
  apply bind_quiet; [reflexivity | intros [[px py]|]]; [|reflexivity].
  apply bind_quiet; [apply get_closest_waypoint_quiet | intros car].
  apply bind_quiet; [apply get_closest_light_in_front_quiet | intros [[cl d] lw]].
  destruct cl as [light|]; [|reflexivity].
  destruct (d <? WAYPOINT_LOOKAHEAD); [|reflexivity].
  apply bind_quiet; [apply get_light_state_quiet | intros st].
  reflexivity.
Qed.

(** The value of the selection loop is decided by the tree. *)
Lemma closest_light_loop_reads (car : Z) (slp : list point) (ls : list TrafficLight) :
  forall (i : nat) (acc : selection) (s1 s2 : TLDetector),
  waypoint_tree s1 = waypoint_tree s2 ->
  value_of (closest_light_loop car slp i ls acc s1) =
  value_of (closest_light_loop car slp i ls acc s2).
Proof.
  induction ls as [|light rest IH]; intros i acc s1 s2 Ht; [reflexivity|].
  destruct acc as [[cl diff] lw]. rewrite !closest_light_loop_cons, Ht.
  destruct (slp !! i) as [line|]; [|reflexivity].
  destruct (waypoint_tree s2) as [t|] eqn:Ht2; [|reflexivity].
  cbn zeta. apply IH.
  change (waypoint_tree s1 = waypoint_tree s2). congruence.
Qed.

(** The value of [process_traffic_lights] is decided by the inputs stored
    and by the image of the frame. *)
Lemma process_traffic_lights_reads (s1 s2 : TLDetector) :
  inputs_of s1 = inputs_of s2 ->
  has_image s1 = has_image s2 ->
  camera_image s1 = camera_image s2 ->
  value_of (process_traffic_lights s1) = value_of (process_traffic_lights s2).
Proof.
  intros Hin Hflag Himg. unfold inputs_of in Hin.
  injection Hin as Hp Hw Hl H2d Ht Hc.
  destruct (pose s2) as [[px py]|] eqn:Hp2.
  - destruct (waypoint_tree s2) as [t|] eqn:Ht2.
    + rewrite (process_traffic_lights_value s1 px py t) by congruence.
      rewrite (process_traffic_lights_value s2 px py t) by congruence.
      assert (Hsel : value_of (get_closest_light_in_front (KDTree_query t px py)
                                 (config_stop_line_positions s1) s1)
                     = value_of (get_closest_light_in_front (KDTree_query t px py)
                                 (config_stop_line_positions s2) s2)).
      { unfold get_closest_light_in_front, bind, read. cbv beta iota.
        rewrite Hw, Hc.
        destruct (waypoints s2); [|reflexivity].
        cbv beta iota. rewrite Hl.
        apply closest_light_loop_reads. congruence. }
      rewrite Hsel.
      destruct (value_of (get_closest_light_in_front _ _ s2)) as [[[[l|] d] lw]|e];
        try reflexivity.
      destruct (d <? WAYPOINT_LOOKAHEAD); [|reflexivity].
      assert (Hcol : value_of (get_light_state l s1) = value_of (get_light_state l s2)).
      { unfold get_light_state, bind, read, write, call, raise, ret. simpl.
        rewrite Hflag.
        destruct (has_image s2) as [[|]|]; try reflexivity.
        cbv beta iota. rewrite Himg.
        destruct (camera_image s2); reflexivity. }
      now rewrite Hcol.
    + unfold process_traffic_lights, get_closest_waypoint, bind, read, raise.
      rewrite Hp, Hp2, Ht, Ht2. reflexivity.
  - rewrite !no_pose_value by congruence. reflexivity.
Qed.

(** One frame of the debouncer reads and writes the debouncer only. *)
Lemma publish_upcoming_red_light_debouncer (light_wp state' : pyval) (s1 s2 : TLDetector) :
  debouncer_of s1 = debouncer_of s2 ->
  debouncer_of (state_of (publish_upcoming_red_light light_wp state' s1)) =
  debouncer_of (state_of (publish_upcoming_red_light light_wp state' s2)).
Proof.
  intros Hd. unfold debouncer_of in Hd. injection Hd as Hs Hl Hw Hc Hp.
  assert (Hb : branch_of s1 state' = branch_of s2 state')
    by (unfold branch_of; now rewrite Hs, Hc).
  pose proof (frame_fields light_wp state' s1) as H1.
  pose proof (frame_fields light_wp state' s2) as H2.
  cbn zeta in H1, H2. rewrite Hb in H1. unfold debouncer_of.
  destruct (branch_of s2 state');
    destruct H1 as (-> & -> & -> & -> & ->);
    destruct H2 as (-> & -> & -> & -> & ->); congruence.
Qed.

Lemma publish_upcoming_red_light_rest (light_wp state' : pyval) (s : TLDetector) :
  let s' := state_of (publish_upcoming_red_light light_wp state' s) in
  inputs_of s' = inputs_of s /\ has_image s' = has_image s /\
  camera_image s' = camera_image s /\ image_counter s' = image_counter s.
Proof.
  cbn zeta. rewrite publish_upcoming_red_light_step.
  destruct (branch_of s state'); repeat split; reflexivity.
Qed.

Lemma kept_of_eq (a b : TLDetector) :
  kept_of a = kept_of b ->
  inputs_of a = inputs_of b /\ debouncer_of a = debouncer_of b /\
  has_image a = has_image b /\ camera_image a = camera_image b /\
  image_counter a = image_counter b.
Proof. unfold kept_of. intros H. repeat split; congruence. Qed.

(** [image_cb] is the debouncer's step on the output of the frame, or
    nothing on the debouncer if the frame has no output. *)
Lemma image_cb_frame (msg : Image) (s : TLDetector) :
  let s' := state_of (image_cb msg s) in
  inputs_of s' = inputs_of s /\
  has_image s' = Some true /\
  camera_image s' = Some msg /\
  image_counter s' = image_counter s /\
  match frame_output s msg with
  | Some r =>
      value_of (image_cb msg s) = Ok tt /\
      debouncer_of s' = debouncer_of (state_of (publish_upcoming_red_light (fst r) (snd r) s))
  | None =>
      (exists e, value_of (image_cb msg s) = Raise e) /\
      debouncer_of s' = debouncer_of s
  end.
Proof.
  cbn zeta. unfold frame_output.
  change (image_cb msg s) with
    (bind process_traffic_lights
       (fun r => publish_upcoming_red_light (fst r) (snd r)) (frame_start msg s)).
  pose proof (process_traffic_lights_quiet (frame_start msg s)) as Hq.
  unfold bind, value_of, state_of in *.
  destruct (process_traffic_lights (frame_start msg s)) as [[r|e] s1];
    cbn [fst snd] in *;
    apply kept_of_eq in Hq; destruct Hq as (Hin & Hd & Hflag & Himg & Hcnt).
  - destruct (publish_upcoming_red_light_rest (fst r) (snd r) s1) as (Hi & Hf & Hc & Hn).
    unfold state_of in Hi, Hf, Hc, Hn.
    rewrite Hi, Hf, Hc, Hn, Hin, Hflag, Himg, Hcnt.
    repeat split; try reflexivity.
    + now rewrite publish_upcoming_red_light_step.
    + apply (publish_upcoming_red_light_debouncer (fst r) (snd r) s1 s). exact Hd.
  - rewrite Hin, Hflag, Himg, Hcnt, Hd.
    repeat split; try reflexivity. now exists e.
Qed.

End Quiet.

(** ** Frames of the node *)

Section Frames.
Context `{Ext : External}.

Lemma debouncer_of_eq (a b : TLDetector) :
  debouncer_of a = debouncer_of b ->
  state a = state b /\ last_state a = last_state b /\ last_wp a = last_wp b /\
  state_count a = state_count b /\ published a = published b.
Proof. unfold debouncer_of. intros H. repeat split; congruence. Qed.

(** X1. A frame of the node publishes at most one message. If frame
    processing raises, [image_cb] raises and nothing is published. If it
    returns [(w, c)], [image_cb] returns, and it publishes exactly one
    message when [c] equals the state, and none, leaving [last_wp] as it
    was, when [c] differs from the state. *)
Theorem image_cb_publishes_at_most_once (s : TLDetector) (msg : Image) :
  let s' := state_of (image_cb msg s) in
  match frame_output s msg with
  | None =>
      (exists e, value_of (image_cb msg s) = Raise e) /\
      published s' = published s /\ last_wp s' = last_wp s
  | Some (w, c) =>
      value_of (image_cb msg s) = Ok tt /\
      if py_eq (state s) c
      then exists v : pyval, published s' = published s ++ [v] /\ last_wp s' = v
      else published s' = published s /\ last_wp s' = last_wp s
  end.
Proof.
  cbn zeta. destruct (image_cb_frame msg s) as (_ & _ & _ & _ & H).
  destruct (frame_output s msg) as [[w c]|].
  - destruct H as [Hv Hd]. split; [exact Hv|].
    apply debouncer_of_eq in Hd. destruct Hd as (_ & _ & Hw & _ & Hp).
    simpl fst in *. simpl snd in *. rewrite Hw, Hp.
    destruct (debounce_publishes_at_most_once s w c) as [Hne Heq].
    destruct (py_eq (state s) c).
    + apply Heq. reflexivity.
    + destruct (Hne eq_refl) as (H1 & H2 & _). now split.
  - destruct H as [He Hd]. split; [exact He|].
    apply debouncer_of_eq in Hd. destruct Hd as (_ & _ & Hw & _ & Hp).
    now split.
Qed.

Lemma frame_output_inputs (s1 s2 : TLDetector) (msg : Image) :
  inputs_of s1 = inputs_of s2 -> frame_output s1 msg = frame_output s2 msg.
Proof.
  intros Hin. unfold frame_output.
  now rewrite (process_traffic_lights_reads (frame_start msg s1) (frame_start msg s2)).
Qed.

Lemma debouncer_fed_by_frames (msgs : list Image) :
  forall s s0 d : TLDetector,
  inputs_of s = inputs_of s0 ->
  debouncer_of s = debouncer_of d ->
  debouncer_of (deliver image_cb msgs s) =
    debouncer_of (debounce (omap (frame_output s0) msgs) d) /\
  inputs_of (deliver image_cb msgs s) = inputs_of s0.
Proof.
  induction msgs as [|m msgs IH]; intros s s0 d Hin Hd.
  - split; assumption.
  - simpl deliver. simpl omap.
    destruct (image_cb_frame m s) as (Hin' & _ & _ & _ & H).
    rewrite <- (frame_output_inputs s s0 m Hin).
    destruct (frame_output s m) as [r|].
    + destruct H as [_ Hd']. rewrite debounce_cons. apply IH.
      * congruence.
      * rewrite Hd'. now apply publish_upcoming_red_light_debouncer.
    + destruct H as [_ Hd']. apply IH; congruence.
Qed.

(** X7. A run of frames, with the pose, the path and the lights as they
    are, drives the debouncer with the outputs of frame processing: the
    debouncer's variables and the messages published are those of the
    debouncer fed with the outputs of the frames that have one; a frame
    that raises does not touch the debouncer. What the other callbacks
    stored is left as it was. *)
Theorem frames_feed_the_debouncer (msgs : list Image) (s : TLDetector) :
  debouncer_of (deliver image_cb msgs s) =
    debouncer_of (debounce (omap (frame_output s) msgs) s) /\
  inputs_of (deliver image_cb msgs s) = inputs_of s.
Proof.
  destruct (debouncer_fed_by_frames msgs s s s eq_refl eq_refl) as [Hd Hin].
  split; [exact Hd | exact Hin].
Qed.

Lemma value_of_bind {A B : Type} (m : M A) (k : A -> M B) (s : TLDetector) :
  value_of (bind m k s) =
  match value_of (m s) with
  | Ok a => value_of (k a (state_of (m s)))
  | Raise e => Raise e
  end.
Proof. unfold bind, value_of, state_of. now destruct (m s) as [[a|e] s1]. Qed.

(** The value of the selection with a path and a tree. *)
Lemma get_closest_light_in_front_value
    (s : TLDetector) (car : Z) (slp : list point)
    (wps : list Waypoint) (t : KDTree_t) :
  waypoints s = Some wps ->
  waypoint_tree s = Some t ->
  value_of (get_closest_light_in_front car slp s) =
  if (length slp <? length (lights s))%nat then Raise IndexError
  else Ok (select_from car (stop_line_wp t slp) 0 (lights s)
             (None, Z.of_nat (length wps), None)).
Proof.
  intros Hw Ht. unfold get_closest_light_in_front, bind, read. rewrite Hw.
  destruct (Nat.ltb_spec (length slp) (length (lights s))) as [Hlt|Hge].
  - unfold value_of.
    now rewrite (closest_light_loop_index_error car slp t (lights s) 0 _ s Ht) by lia.
  - apply (closest_light_loop_value car slp t (lights s) 0 _ s Ht). lia.
Qed.

Lemma get_light_state_framed (light : TrafficLight) (msg : Image) (s : TLDetector) :
  value_of (get_light_state light (frame_start msg s))
  = Ok (get_classification (imgmsg_to_cv2 msg)).
Proof. reflexivity. Qed.

(** X8. When [image_cb] raises and when it returns: it returns if no pose
    is known; with a pose it raises [AttributeError] if no tree is built or
    no path is stored, [IndexError] if there are fewer stop lines than
    lights, and returns otherwise. *)
Theorem image_cb_outcome (s : TLDetector) (msg : Image) :
  value_of (image_cb msg s) =
  match pose s with
  | None => Ok tt
  | Some _ =>
      match waypoint_tree s, waypoints s with
      | None, _ | _, None => Raise AttributeError
      | Some _, Some _ =>
          if (length (config_stop_line_positions s) <? length (lights s))%nat
          then Raise IndexError
          else Ok tt
      end
  end.
Proof.
  change (image_cb msg s) with
    (bind process_traffic_lights
       (fun r => publish_upcoming_red_light (fst r) (snd r)) (frame_start msg s)).
  rewrite value_of_bind.
  assert (Hpub : forall r s1,
             value_of (publish_upcoming_red_light (fst r) (snd r) s1) = Ok tt)
    by (intros r s1; now rewrite publish_upcoming_red_light_step).
  change (pose s) with (pose (frame_start msg s)).
  change (waypoint_tree s) with (waypoint_tree (frame_start msg s)).
  change (waypoints s) with (waypoints (frame_start msg s)).
  change (lights s) with (lights (frame_start msg s)).
  change (config_stop_line_positions s)
    with (config_stop_line_positions (frame_start msg s)).
  set (s0 := frame_start msg s).
  destruct (pose s0) as [[px py]|] eqn:Hp.
  - destruct (waypoint_tree s0) as [t|] eqn:Ht.
    + rewrite (process_traffic_lights_value s0 px py t Hp Ht).
      destruct (waypoints s0) as [wps|] eqn:Hw.
      * rewrite (get_closest_light_in_front_value s0 _ _ wps t Hw Ht).
        destruct (_ <? _)%nat; [reflexivity|].
        destruct (select_from _ _ _ _ _) as [[[light|] d] lw]; [|apply Hpub].
        destruct (d <? WAYPOINT_LOOKAHEAD); [|apply Hpub].
        subst s0. rewrite get_light_state_framed. apply Hpub.
      * unfold get_closest_light_in_front, bind, read. now rewrite Hw.
    + unfold process_traffic_lights, get_closest_waypoint, bind, read, raise.
      rewrite Hp, Ht. now destruct (waypoints s0).
  - rewrite (no_pose_value s0 Hp). apply Hpub.
Qed.

(** X9. With a pose, a tree, a path and a stop line for every light, a
    frame reports the nearest light in the window and misses none. Call a
    light in the window when its stop line is at or ahead of the car's
    index by less than [WAYPOINT_LOOKAHEAD] (100) and by less than the
    length of the stored path. If no light is in the window the output is
    [(-1, UNKNOWN)]. Otherwise it is the stop index of a light in the
    window, with the classifier's colour for the image: no light in the
    window is nearer, and those before it in the list are strictly
    farther. *)
Theorem nearest_light_in_window_is_reported
    (s : TLDetector) (msg : Image) (px py : coord)
    (t : KDTree_t) (wps : list Waypoint) :
  pose s = Some (px, py) ->
  waypoint_tree s = Some t ->
  waypoints s = Some wps ->
  (length (lights s) <= length (config_stop_line_positions s))%nat ->
  let idx := stop_line_wp t (config_stop_line_positions s) in
  let d j := idx j - KDTree_query t px py in
  let window j := 0 <= d j < Z.of_nat (length wps) /\ d j < WAYPOINT_LOOKAHEAD in
  ((forall j, (j < length (lights s))%nat -> ~ window j) /\
   frame_output s msg = Some (PInt (-1), PInt TrafficLight_UNKNOWN))
  \/
  (exists (k : nat) (light : TrafficLight),
     lights s !! k = Some light /\
     window k /\
     (forall j, (j < length (lights s))%nat -> window j -> d k <= d j) /\
     (forall j, (j < k)%nat -> window j -> d k < d j) /\
     frame_output s msg = Some (PInt (idx k), get_classification (imgmsg_to_cv2 msg))).
Proof.
  intros Hp Ht Hw Hlen idx d window. unfold frame_output.
  rewrite (process_traffic_lights_value (frame_start msg s) px py t Hp Ht).
  rewrite (get_closest_light_in_front_value (frame_start msg s) _ _ wps t Hw Ht).
  change (lights (frame_start msg s)) with (lights s).
  change (config_stop_line_positions (frame_start msg s))
    with (config_stop_line_positions s).
  destruct (Nat.ltb_spec (length (config_stop_line_positions s)) (length (lights s)))
    as [Hlt|_]; [lia|].
  change (stop_line_wp t (config_stop_line_positions s)) with idx.
  set (car := KDTree_query t px py) in *.
  assert (Hinit : first_minimum (lights s) (Z.of_nat (length wps)) car idx 0
                    (None, Z.of_nat (length wps), None))
    by (split; [reflexivity | intros j Hj; lia]).
  pose proof (select_from_first_minimum car (lights s) (Z.of_nat (length wps)) idx
                (lights s) [] _ eq_refl Hinit) as Hsel.
  change (length (@nil TrafficLight)) with 0%nat in Hsel. revert Hsel.
  destruct (select_from car idx 0 (lights s) (None, Z.of_nat (length wps), None))
    as [[[light|] dist] [ix|]]; intros Hsel;
    unfold first_minimum in Hsel; cbv beta iota zeta in Hsel; try contradiction.
  - destruct Hsel as (k & Hk & Hlk & -> & -> & Hel & Hmin & Hfirst).
    destruct (Z.ltb_spec (idx k - car) WAYPOINT_LOOKAHEAD) as [Hnear|Hfar].
    + right. exists k, light. rewrite get_light_state_framed.
      subst window d. cbv beta.
      split; [exact Hlk|]. split; [split; assumption|].
      split; [intros j Hj [Hwj _]; now apply Hmin|].
      split; [intros j Hj [Hwj _]; now apply Hfirst | reflexivity].
    + left. split; [|reflexivity].
      subst window d. cbv beta. intros j Hj [Hwj Hnj].
      specialize (Hmin j Hj Hwj). lia.
  - left. destruct Hsel as [_ Hnone]. split; [|reflexivity].
    subst window d. cbv beta. intros j Hj [Hwj _]. now apply (Hnone j Hj).
Qed.

(** X10. Steady frames end in a commit: when the count is not negative and
    [STATE_COUNT_THRESHOLD] or more frames in a row, and one more, all have
    the output [(w, c)], that last frame publishes the commit value of
    [(w, c)] ([w] if [c] is RED, -1 otherwise) and stores it in
    [last_wp]. *)
Theorem steady_frames_commit
    (s : TLDetector) (msgs : list Image) (msg : Image) (w c : pyval) :
  0 <= state_count s ->
  STATE_COUNT_THRESHOLD <= Z.of_nat (length msgs) ->
  (forall m, In m (msg :: msgs) -> frame_output s m = Some (w, c)) ->
  let v := if py_eq c (PInt TrafficLight_RED) then w else PInt (-1) in
  published (deliver image_cb (msgs ++ [msg]) s)
    = published (deliver image_cb msgs s) ++ [v] /\
  last_wp (deliver image_cb (msgs ++ [msg]) s) = v.
Proof.
  intros Hcnt Hlen Hout v.
  assert (Hmap : forall l : list Image,
             (forall m, In m l -> frame_output s m = Some (w, c)) ->
             omap (frame_output s) l
             = map (fun w' => (w', c)) (replicate (length l) w)).
  { induction l as [|m l IHl]; intros Hl; [reflexivity|].
    simpl. rewrite (Hl m) by now left.
    f_equal. apply IHl. intros m' Hm'. apply Hl. now right. }
  destruct (debouncer_fed_by_frames (msgs ++ [msg]) s s s eq_refl eq_refl)
    as [Hd1 _].
  destruct (debouncer_fed_by_frames msgs s s s eq_refl eq_refl) as [Hd0 _].
  rewrite omap_app, debounce_app_run in Hd1.
  simpl omap in Hd1. rewrite (Hout msg) in Hd1 by now left.
  rewrite Hmap in Hd0, Hd1 by (intros m Hm; apply Hout; now right).
  set (ws := replicate (length msgs) w) in *.
  destruct (steady_colour_reaches_threshold s c ws Hcnt) as [Heq Hthr].
  { subst ws. now rewrite length_replicate. }
  cbn zeta in Heq, Hthr.
  set (d := debounce (map (fun w' => (w', c)) ws) s) in *.
  unfold debounce at 1 in Hd1. simpl deliver in Hd1. simpl fst in Hd1. simpl snd in Hd1.
  rewrite (commit_frame d w c Heq Hthr) in Hd1. cbn zeta in Hd1.
  apply debouncer_of_eq in Hd1. destruct Hd1 as (_ & _ & Hw1 & _ & Hp1).
  apply debouncer_of_eq in Hd0. destruct Hd0 as (_ & _ & _ & _ & Hp0).
  rewrite Hw1, Hp1, Hp0. split; reflexivity.
Qed.

(** The selection run on a node with a path, a tree and a stop line for
    every light: its value and the node it leaves. *)
Lemma get_closest_light_in_front_run
    (s : TLDetector) (car : Z) (slp : list point)
    (wps : list Waypoint) (t : KDTree_t) :
  waypoints s = Some wps ->
  waypoint_tree s = Some t ->
  (length (lights s) <= length slp)%nat ->
  get_closest_light_in_front car slp s =
    (Ok (select_from car (stop_line_wp t slp) 0 (lights s)
           (None, Z.of_nat (length wps), None)),
     set_calls (stop_line_queries (length (lights s)) slp ++ calls s) s).
Proof.
  intros Hw Ht Hlen. unfold get_closest_light_in_front, bind, read. rewrite Hw.
  rewrite (surjective_pairing (closest_light_loop car slp 0 (lights s) _ s)).
  f_equal.
  - apply (closest_light_loop_value car slp t (lights s) 0 _ s Ht). lia.
  - unfold stop_line_queries.
    rewrite <- (drop_0 slp) at 2.
    apply (closest_light_loop_state car slp t (lights s) 0 _ s Ht). lia.
Qed.

(** X13. What a frame asks of the collaborators, with a pose, a tree, a
    path and a stop line for every light: one nearest-waypoint query for
    the car, then one for each light's stop line in order, then a single
    classification of the frame's image if a light was selected less than
    [WAYPOINT_LOOKAHEAD] indices ahead, and no classification otherwise.
    Nothing is published and no image is saved by frame processing. *)
Theorem frame_processing_calls
    (s : TLDetector) (msg : Image) (px py : coord)
    (t : KDTree_t) (wps : list Waypoint) :
  pose s = Some (px, py) ->
  waypoint_tree s = Some t ->
  waypoints s = Some wps ->
  (length (lights s) <= length (config_stop_line_positions s))%nat ->
  let slp := config_stop_line_positions s in
  let car := KDTree_query t px py in
  let sel := select_from car (stop_line_wp t slp) 0 (lights s)
               (None, Z.of_nat (length wps), None) in
  calls (state_of (process_traffic_lights (frame_start msg s))) =
    (match sel with
     | (Some _, d, _) => if d <? WAYPOINT_LOOKAHEAD then [CallClassify msg] else []
     | (None, _, _) => []
     end)
    ++ stop_line_queries (length (lights s)) slp
    ++ CallQuery px py :: calls s.
Proof.
  intros Hp Ht Hw Hlen slp car sel.
  unfold process_traffic_lights, bind at 1 2 3, read.
  change (pose (frame_start msg s)) with (pose s). rewrite Hp.
  unfold bind at 1.
  rewrite (get_closest_waypoint_ok t px py (frame_start msg s) Ht).
  unfold bind at 1.
  rewrite (get_closest_light_in_front_run
             (set_calls (CallQuery px py :: calls (frame_start msg s))
                (frame_start msg s))
             (KDTree_query t px py)
             (config_stop_line_positions (frame_start msg s)) wps t Hw Ht Hlen).
  change (config_stop_line_positions (frame_start msg s)) with slp.
  change (KDTree_query t px py) with car.
  change (lights (set_calls _ (frame_start msg s))) with (lights s).
  fold sel. destruct sel as [[[light|] d] lw]; [|reflexivity].
  destruct (d <? WAYPOINT_LOOKAHEAD); reflexivity.
Qed.

(** X15. In a frame the colour is the classifier's: once [image_cb] has
    set the flag and stored the image, every colour query, whatever calls
    were logged in between, returns what the classifier finds in that
    image; and the colour in the output of a frame is UNKNOWN or the
    classifier's colour for the frame's image. *)
Theorem colour_query_in_frame (s : TLDetector) (msg : Image) :
  (forall (light : TrafficLight) (c : list Call),
     value_of (get_light_state light (set_calls c (frame_start msg s)))
     = Ok (get_classification (imgmsg_to_cv2 msg))) /\
  (forall w c : pyval,
     frame_output s msg = Some (w, c) ->
     c = PInt TrafficLight_UNKNOWN \/ c = get_classification (imgmsg_to_cv2 msg)).
Proof.
  split; [intros light c; reflexivity|].
  intros w c. unfold frame_output. set (s' := frame_start msg s).
  destruct (pose s') as [[px py]|] eqn:Hp.
  - destruct (waypoint_tree s') as [t|] eqn:Ht.
    + rewrite (process_traffic_lights_value s' px py t Hp Ht).
      destruct (value_of (get_closest_light_in_front _ _ s'))
        as [[[[l|] d] lw]|e]; try discriminate.
      * destruct (d <? WAYPOINT_LOOKAHEAD).
        -- subst s'. rewrite get_light_state_framed.
           intros [= _ <-]. now right.
        -- intros [= _ <-]. now left.
      * intros [= _ <-]. now left.
    + unfold process_traffic_lights, get_closest_waypoint, bind, read, raise.
      rewrite Hp, Ht. discriminate.
  - rewrite (no_pose_value s' Hp). intros [= _ <-]. now left.
Qed.

End Frames.

(** ** Every state the node can reach *)

Section Reachable.
Context `{Ext : External}.

Lemma waypoints_cb_invariant (slp : list point) (msg : list Waypoint) (s : TLDetector) :
  node_invariant slp s -> node_invariant slp (state_of (waypoints_cb msg s)).
Proof.
  intros (Hc & Hn & Hi & _ & _).
  unfold waypoints_cb, bind, read, write, call, raise, ret. simpl.
  destruct (truthy_list (waypoints_2d s)); simpl.
  - repeat split; try assumption; eauto.
  - destruct (KDTree (waypoint_xy msg)); simpl;
      repeat split; try assumption; eauto.
Qed.

Lemma image_cb_invariant (slp : list point) (msg : Image) (s : TLDetector) :
  node_invariant slp s -> node_invariant slp (state_of (image_cb msg s)).
Proof.
  intros (Hc & Hn & Hi & Ht & H2d).
  destruct (image_cb_frame msg s) as (Hin & Hflag & Himg & _ & Hd).
  cbn zeta in *. unfold inputs_of in Hin.
  injection Hin as _ Hw _ Hw2 Htree Hcfg.
  assert (Hcount : 0 <= state_count (state_of (image_cb msg s))).
  { destruct (frame_output s msg) as [r|]; destruct Hd as [_ Hd];
      apply debouncer_of_eq in Hd; destruct Hd as (_ & _ & _ & -> & _);
      [|exact Hn].
    pose proof (frame_fields (fst r) (snd r) s) as H. cbn zeta in H.
    destruct (branch_of s (snd r)); destruct H as (_ & -> & _); lia. }
  unfold node_invariant. rewrite Hcfg, Hflag, Himg, Htree, Hw, Hw2.
  repeat split; try assumption. right. split; eauto.
Qed.

Lemma callback_invariant (slp : list point) (m : Message) (s : TLDetector) :
  node_invariant slp s -> node_invariant slp (state_of (callback m s)).
Proof.
  destruct m as [p|w|l|img]; simpl callback.
  - intros H. exact H.
  - apply waypoints_cb_invariant.
  - intros H. exact H.
  - apply image_cb_invariant.
Qed.

Lemma spin_invariant (slp : list point) (msgs : list Message) :
  forall s : TLDetector, node_invariant slp s -> node_invariant slp (spin msgs s).
Proof.
  induction msgs as [|m msgs IH]; intros s H; [exact H|].
  apply IH. now apply callback_invariant.
Qed.

(** X11. Whatever messages a node has been sent since its construction, in
    whatever order, and whether or not callbacks raised: the stop lines it
    was configured with are unchanged, the count is not negative, the image
    flag is never [False] and is [True] only with an image stored, and a
    tree or a list of positions is never there without a stored path. *)
Theorem reachable_states_are_well_formed (slp : list point) (msgs : list Message) :
  let s := spin msgs (__init__ slp) in
  config_stop_line_positions s = slp /\
  0 <= state_count s /\
  has_image s <> Some false /\
  (has_image s = Some true -> is_Some (camera_image s)) /\
  (is_Some (waypoint_tree s) -> is_Some (waypoints s)) /\
  (is_Some (waypoints_2d s) -> is_Some (waypoints s)).
Proof.
  cbn zeta.
  assert (Hinit : node_invariant slp (__init__ slp)).
  { unfold node_invariant. simpl. repeat split; try lia; auto.
    - intros [x Hx]. discriminate.
    - intros [x Hx]. discriminate. }
  destruct (spin_invariant slp msgs _ Hinit) as (Hc & Hn & Hi & Ht & H2d).
  repeat split; try assumption.
  - destruct Hi as [[-> _] | [-> _]]; discriminate.
  - destruct Hi as [[-> _] | [_ Hi]]; [discriminate | now intros _].
Qed.

(** X12. A build that fails is not tried again: when the tree constructor
    raises on the first non-empty path, [waypoints_cb] raises with the
    positions already stored, so every later delivery finds the guard of
    line 72 closed: the tree stays as it was however many paths follow,
    while the stored path keeps following the deliveries. *)
Theorem failed_build_is_not_retried
    (s : TLDetector) (p : list Waypoint) (qs : list (list Waypoint)) :
  truthy_list (waypoints_2d s) = false ->
  p <> [] ->
  KDTree (waypoint_xy p) = None ->
  value_of (waypoints_cb p s) = Raise ValueError /\
  waypoints_2d (deliver waypoints_cb (p :: qs) s) = Some (waypoint_xy p) /\
  waypoint_tree (deliver waypoints_cb (p :: qs) s) = waypoint_tree s /\
  waypoints (deliver waypoints_cb (p :: qs) s) = last (p :: qs).
Proof.
  intros Hb Hp Hk.
  assert (Hrun : waypoints_cb p s =
                 (Raise ValueError,
                  set_calls (CallKDTree (waypoint_xy p) :: calls s)
                    (set_waypoints_2d (Some (waypoint_xy p))
                       (set_waypoints (Some p) s)))).
  { unfold waypoints_cb, bind, read, write, call, raise, ret. simpl.
    rewrite Hb. simpl. now rewrite Hk. }
  split; [now rewrite Hrun|].
  simpl deliver. rewrite Hrun. unfold state_of. simpl snd.
  match goal with |- context [deliver waypoints_cb qs ?x] => set (s1 := x) end.
  destruct (deliver_after_build qs s1) as (H2d & Ht & _ & Hw).
  { subst s1. simpl. destruct p; [congruence | reflexivity]. }
  rewrite H2d, Ht, Hw. repeat split.
  rewrite last_cons. now destruct (last qs).
Qed.

(** The pose, path and light callbacks do not touch the image flag. *)
Lemma callback_keeps_has_image (m : Message) (s : TLDetector) :
  match m with OnImage _ => False | _ => True end ->
  has_image (state_of (callback m s)) = has_image s.
Proof.
  destruct m as [p|w|l|img]; simpl callback; intros Hm;
    try reflexivity; [|contradiction].
  unfold waypoints_cb, bind, read, write, call, raise, ret. simpl.
  destruct (truthy_list (waypoints_2d s)); simpl; [reflexivity|].
  destruct (KDTree (waypoint_xy w)); reflexivity.
Qed.

(** C10 (the code where no image has been received). On a node that has
    been sent any poses, paths and lights but no image since its
    construction, the attribute [has_image] does not exist and
    [get_light_state] raises [AttributeError] on reading it: it does not
    return [False]. *)
Theorem get_light_state_without_image_raises
    (slp : list point) (msgs : list Message) (light : TrafficLight) :
  Forall (fun m => match m with OnImage _ => False | _ => True end) msgs ->
  has_image (spin msgs (__init__ slp)) = None /\
  value_of (get_light_state light (spin msgs (__init__ slp))) = Raise AttributeError /\
  value_of (get_light_state light (spin msgs (__init__ slp))) <> Ok (PBool false).
Proof.
  intros Hall.
  assert (Hflag : forall s, has_image s = None -> has_image (spin msgs s) = None).
  { induction Hall as [|m msgs Hm Hall IH]; intros s Hs; [exact Hs|].
    apply IH. now rewrite callback_keeps_has_image. }
  specialize (Hflag (__init__ slp) eq_refl).
  assert (Hv : value_of (get_light_state light (spin msgs (__init__ slp)))
               = Raise AttributeError).
  { unfold get_light_state, bind, read, raise. simpl. now rewrite Hflag. }
  split; [exact Hflag|]. split; [exact Hv|]. rewrite Hv. discriminate.
Qed.

End Reachable.

(** * Further concrete runs *)

Section Runs2.
Import Reference.

Lemma flickering_publishes_nothing_witness :
  flickering (state fresh) [(PInt 7, GREEN); (PInt 7, RED); (PInt 7, GREEN)] /\
  published (debounce [(PInt 7, GREEN); (PInt 7, RED); (PInt 7, GREEN)] fresh)
  = published fresh.
Proof.
  assert (H : flickering (state fresh) [(PInt 7, GREEN); (PInt 7, RED); (PInt 7, GREEN)])
    by (simpl; repeat split).
  split; [exact H|].
  exact (proj1 (flickering_publishes_nothing _ fresh H)).
Defined.

Lemma published_values_come_from_red_frames_witness :
  In (PInt 7) (last_wp (debounce [(PInt 7, RED)] red_counted)
               :: published (debounce [(PInt 7, RED)] red_counted)) /\
  (In (PInt 7) (published red_counted) \/ PInt 7 = last_wp red_counted \/
   PInt 7 = PInt (-1) \/
   exists f, In f [(PInt 7, RED)] /\
             py_eq (snd f) (PInt TrafficLight_RED) = true /\ PInt 7 = fst f).
Proof.
  assert (H : In (PInt 7) (last_wp (debounce [(PInt 7, RED)] red_counted)
                           :: published (debounce [(PInt 7, RED)] red_counted)))
    by (left; reflexivity).
  split; [exact H|].
  exact (published_values_come_from_red_frames [(PInt 7, RED)] red_counted (PInt 7) H).
Defined.

Lemma steady_colour_commits_witness :
  0 <= state_count green_stable /\
  STATE_COUNT_THRESHOLD <= Z.of_nat (length [PInt 5; PInt 6; PInt 7]) /\
  published (debounce [(PInt 8, RED)]
               (debounce (map (fun w => (w, RED)) [PInt 5; PInt 6; PInt 7]) green_stable))
  = published (debounce (map (fun w => (w, RED)) [PInt 5; PInt 6; PInt 7]) green_stable)
    ++ [PInt 8].
Proof.
  assert (H1 : 0 <= state_count green_stable) by (change (0 <= 4); lia).
  assert (H2 : STATE_COUNT_THRESHOLD <= Z.of_nat (length [PInt 5; PInt 6; PInt 7]))
    by (change (3 <= 3); lia).
  split; [exact H1|]. split; [exact H2|].
  pose proof (steady_colour_commits green_stable RED [PInt 5; PInt 6; PInt 7]
                (PInt 8) H1 H2) as H.
  cbv zeta in H. destruct H as (_ & Hp & _). exact Hp.
Defined.

Lemma selection_queries_every_stop_line_witness :
  waypoints (driving 10 2 [7; 4]) = Some (line_path 10) /\
  waypoint_tree (driving 10 2 [7; 4]) = Some (waypoint_xy (line_path 10)) /\
  Nat.le (length (lights (driving 10 2 [7; 4]))) (length [(7, 0); (4, 0)]) /\
  calls (state_of (get_closest_light_in_front 2 [(7, 0); (4, 0)] (driving 10 2 [7; 4])))
  = CallQuery 4 0 :: CallQuery 7 0 :: calls (driving 10 2 [7; 4]).
Proof.
  assert (H1 : waypoints (driving 10 2 [7; 4]) = Some (line_path 10)) by reflexivity.
  assert (H2 : waypoint_tree (driving 10 2 [7; 4]) = Some (waypoint_xy (line_path 10)))
    by reflexivity.
  assert (H3 : Nat.le (length (lights (driving 10 2 [7; 4]))) (length [(7, 0); (4, 0)]))
    by (change (2 <= 2)%nat; lia).
  split; [exact H1|]. split; [exact H2|]. split; [exact H3|].
  rewrite (selection_queries_every_stop_line (driving 10 2 [7; 4]) 2
             [(7, 0); (4, 0)] (line_path 10) (waypoint_xy (line_path 10)) H1 H2 H3).
  reflexivity.
Defined.

Lemma too_few_stop_lines_raises_witness :
  waypoints (driving 10 2 [7; 4]) = Some (line_path 10) /\
  waypoint_tree (driving 10 2 [7; 4]) = Some (waypoint_xy (line_path 10)) /\
  Nat.lt (length [(7, 0)]) (length (lights (driving 10 2 [7; 4]))) /\
  value_of (get_closest_light_in_front 2 [(7, 0)] (driving 10 2 [7; 4]))
  = Raise IndexError.
Proof.
  assert (H1 : waypoints (driving 10 2 [7; 4]) = Some (line_path 10)) by reflexivity.
  assert (H2 : waypoint_tree (driving 10 2 [7; 4]) = Some (waypoint_xy (line_path 10)))
    by reflexivity.
  assert (H3 : Nat.lt (length [(7, 0)]) (length (lights (driving 10 2 [7; 4]))))
    by (change (1 < 2)%nat; lia).
  split; [exact H1|]. split; [exact H2|]. split; [exact H3|].
  rewrite (too_few_stop_lines_raises (driving 10 2 [7; 4]) 2 [(7, 0)]
             (line_path 10) (waypoint_xy (line_path 10)) H1 H2 H3).
  reflexivity.
Defined.

Lemma nearest_light_in_window_is_reported_witness :
  pose (driving 10 2 [7]) = Some (2, 0) /\
  waypoint_tree (driving 10 2 [7]) = Some (waypoint_xy (line_path 10)) /\
  waypoints (driving 10 2 [7]) = Some (line_path 10) /\
  Nat.le (length (lights (driving 10 2 [7])))
         (length (config_stop_line_positions (driving 10 2 [7]))) /\
  exists out, frame_output (driving 10 2 [7]) RED = Some out.
Proof.
  assert (H4 : Nat.le (length (lights (driving 10 2 [7])))
                      (length (config_stop_line_positions (driving 10 2 [7]))))
    by (change (1 <= 1)%nat; lia).
  split; [reflexivity|]. split; [reflexivity|]. split; [reflexivity|].
  split; [exact H4|].
  destruct (nearest_light_in_window_is_reported (driving 10 2 [7]) RED 2 0
              (waypoint_xy (line_path 10)) (line_path 10)
              eq_refl eq_refl eq_refl H4)
    as [[_ Hout] | (k & light & _ & _ & _ & _ & Hout)]; eexists; exact Hout.
Defined.

Lemma frame_processing_calls_witness :
  pose (driving 10 2 [7]) = Some (2, 0) /\
  waypoint_tree (driving 10 2 [7]) = Some (waypoint_xy (line_path 10)) /\
  waypoints (driving 10 2 [7]) = Some (line_path 10) /\
  Nat.le (length (lights (driving 10 2 [7])))
         (length (config_stop_line_positions (driving 10 2 [7]))) /\
  calls (state_of (process_traffic_lights (frame_start RED (driving 10 2 [7]))))
  = CallClassify RED :: CallQuery 7 0 :: CallQuery 2 0 :: calls (driving 10 2 [7]).
Proof.
  assert (H4 : Nat.le (length (lights (driving 10 2 [7])))
                      (length (config_stop_line_positions (driving 10 2 [7]))))
    by (change (1 <= 1)%nat; lia).
  split; [reflexivity|]. split; [reflexivity|]. split; [reflexivity|].
  split; [exact H4|].
  rewrite (frame_processing_calls (driving 10 2 [7]) RED 2 0
             (waypoint_xy (line_path 10)) (line_path 10)
             eq_refl eq_refl eq_refl H4).
  reflexivity.
Defined.

Lemma steady_frames_commit_witness :
  0 <= state_count (driving 10 2 [7]) /\
  STATE_COUNT_THRESHOLD <= Z.of_nat (length [RED; RED; RED]) /\
  (forall m, In m [RED; RED; RED; RED] ->
     frame_output (driving 10 2 [7]) m = Some (PInt 7, RED)) /\
  published (deliver image_cb ([RED; RED; RED] ++ [RED]) (driving 10 2 [7]))
  = published (deliver image_cb [RED; RED; RED] (driving 10 2 [7])) ++ [PInt 7].
Proof.
  assert (H1 : 0 <= state_count (driving 10 2 [7])) by (change (0 <= 0); lia).
  assert (H2 : STATE_COUNT_THRESHOLD <= Z.of_nat (length [RED; RED; RED]))
    by (change (3 <= 3); lia).
  assert (H3 : forall m, In m [RED; RED; RED; RED] ->
                 frame_output (driving 10 2 [7]) m = Some (PInt 7, RED)).
  { intros m Hm. simpl in Hm.
    destruct Hm as [<- | [<- | [<- | [<- | []]]]]; reflexivity. }
  split; [exact H1|]. split; [exact H2|]. split; [exact H3|].
  exact (proj1 (steady_frames_commit (driving 10 2 [7]) [RED; RED; RED] RED
                  (PInt 7) RED H1 H2 H3)).
Defined.

Lemma failed_build_is_not_retried_witness :
  truthy_list (waypoints_2d (__init__ (Ext := brittle) [])) = false /\
  [Build_Waypoint (Ext := brittle) 0 0] <> [] /\
  KDTree (External := brittle) (waypoint_xy [Build_Waypoint (Ext := brittle) 0 0]) = None /\
  waypoint_tree
    (deliver waypoints_cb
       [[Build_Waypoint (Ext := brittle) 0 0];
        [Build_Waypoint (Ext := brittle) 1 0; Build_Waypoint (Ext := brittle) 2 0]]
       (__init__ (Ext := brittle) []))
  = None.
Proof.
  assert (H1 : truthy_list (waypoints_2d (__init__ (Ext := brittle) [])) = false)
    by reflexivity.
  assert (H2 : [Build_Waypoint (Ext := brittle) 0 0] <> []) by discriminate.
  assert (H3 : KDTree (External := brittle)
                 (waypoint_xy [Build_Waypoint (Ext := brittle) 0 0]) = None)
    by reflexivity.
  split; [exact H1|]. split; [exact H2|]. split; [exact H3|].
  destruct (failed_build_is_not_retried (__init__ (Ext := brittle) [])
              [Build_Waypoint (Ext := brittle) 0 0]
              [[Build_Waypoint (Ext := brittle) 1 0; Build_Waypoint (Ext := brittle) 2 0]]
              H1 H2 H3) as (_ & _ & Ht & _).
  exact Ht.
Defined.

Lemma get_light_state_without_image_raises_witness :
  Forall (fun m : Message => match m with OnImage _ => False | _ => True end)
    [OnWaypoints (line_path 10); OnPose (2, 0); OnTraffic [light_at 7]] /\
  value_of (get_light_state (light_at 7)
              (spin [OnWaypoints (line_path 10); OnPose (2, 0); OnTraffic [light_at 7]]
                 (__init__ [(7, 0)])))
  = Raise AttributeError.
Proof.
  assert (H : Forall (fun m : Message => match m with OnImage _ => False | _ => True end)
                [OnWaypoints (line_path 10); OnPose (2, 0); OnTraffic [light_at 7]])
    by (repeat constructor).
  split; [exact H|].
  exact (proj1 (proj2 (get_light_state_without_image_raises [(7, 0)] _ (light_at 7) H))).
Defined.

Lemma colour_query_in_frame_witness :
  frame_output (driving 10 2 [7]) RED = Some (PInt 7, RED) /\
  (RED = PInt TrafficLight_UNKNOWN \/ RED = get_classification (imgmsg_to_cv2 RED)).
Proof.
  assert (H : frame_output (driving 10 2 [7]) RED = Some (PInt 7, RED)) by reflexivity.
  split; [exact H|].
  exact (proj2 (colour_query_in_frame (driving 10 2 [7]) RED) (PInt 7) RED H).
Defined.

End Runs2.
